(** * python-decouple: a shallow embedding of [decouple.py]

    The development follows the layout of the module: the undefined marker,
    [Config], [WritableConfig], the repositories ([RepositoryEmpty],
    [RepositoryIni], [WritableRepositoryIni], [RepositoryEnv]), [AutoConfig]
    with its upward file search, and the [Csv] helper.

    Conventions.
    - A Python [str] is a Rocq [string]; a character is a code point below
      256, so [lower] and [isspace] are the Latin-1 restrictions of the
      Unicode ones.
    - Exceptions are values of [exn]; a computation that may raise returns a
      [result].
    - Process-wide mutable state (the environment, the class attribute
      [RepositoryIni.SECTION], the files) lives in a [World] that is passed
      explicitly. *)

From Stdlib Require Import Ascii String NArith.
From stdpp Require Import base gmap strings list pretty.

Local Open Scope stdpp_scope.

(* ===================================================================== *)
(** * Python strings *)
(* ===================================================================== *)

Module Str.

Definition chars (s : string) : list ascii := list_ascii_of_string s.
Definition of_chars (l : list ascii) : string := string_of_list_ascii l.

Definition code (c : ascii) : N := N_of_ascii c.

(** [c in chars_]: membership of a character in a string used as a set. *)
Definition mem (c : ascii) (set : string) : bool :=
  existsb (Ascii.eqb c) (chars set).

(** [str.isspace] on one character (code points below 256). *)
Definition isspace (c : ascii) : bool :=
  let n := code c in
  ((9 <=? n) && (n <=? 13) || (28 <=? n) && (n <=? 32)
   || (n =? 133) || (n =? 160))%N.

(** [str.lower] on one character: A-Z and the Latin-1 capitals
    (U+00C0..U+00DE without the multiplication sign) move up by 32. *)
Definition lower_char (c : ascii) : ascii :=
  let n := code c in
  if ((65 <=? n) && (n <=? 90)
      || (192 <=? n) && (n <=? 222) && negb (n =? 215))%N
  then ascii_of_N (n + 32) else c.

Definition lower (s : string) : string :=
  of_chars (map lower_char (chars s)).

(** [s.lstrip], [s.rstrip], [s.strip] with the set of characters to drop
    given as a predicate. *)
Fixpoint lstrip_by (p : ascii → bool) (l : list ascii) : list ascii :=
  match l with
  | c :: l' => if p c then lstrip_by p l' else l
  | [] => []
  end.

Definition rstrip_by (p : ascii → bool) (l : list ascii) : list ascii :=
  rev (lstrip_by p (rev l)).

Definition strip_by (p : ascii → bool) (l : list ascii) : list ascii :=
  rstrip_by p (lstrip_by p l).

(** [s.strip()] *)
Definition strip (s : string) : string :=
  of_chars (strip_by isspace (chars s)).

(** [s.strip(set)] *)
Definition strip_chars (set : string) (s : string) : string :=
  of_chars (strip_by (λ c, mem c set) (chars s)).

(** [s.startswith(c)] for a one-character prefix. *)
Definition startswith_char (c : ascii) (s : string) : bool :=
  match s with
  | String c' _ => Ascii.eqb c' c
  | EmptyString => false
  end.

(** [c in s] for a one-character needle. *)
Definition contains_char (c : ascii) (s : string) : bool := mem c s.

(** [s.split(c, 1)] when [c] occurs in [s]: the text before the first
    occurrence and the text after it; [None] when [c] does not occur. *)
Fixpoint split_first (c : ascii) (l : list ascii)
  : option (list ascii * list ascii) :=
  match l with
  | [] => None
  | x :: l' =>
      if Ascii.eqb x c then Some ([], l')
      else match split_first c l' with
           | Some (k, v) => Some (x :: k, v)
           | None => None
           end
  end.

(** [s[0]] and [s[-1]] *)
Definition first (s : string) : option ascii := head (chars s).
Definition last (s : string) : option ascii := List.last (map Some (chars s)) None.

Definition len (s : string) : nat := String.length s.

End Str.

(* ===================================================================== *)
(** * Values, exceptions, results *)
(* ===================================================================== *)

(** The Python values that options, defaults and cast results range over. *)
Inductive pyval :=
| PNone
| PBool (b : bool)
| PInt (z : Z)
| PStr (s : string).

Global Instance pyval_eq_dec : EqDecision pyval.
Proof. solve_decision. Defined.

(** [str(value)] *)
Definition py_str (v : pyval) : string :=
  match v with
  | PNone => "None"
  | PBool true => "True"
  | PBool false => "False"
  | PInt z => pretty z
  | PStr s => s
  end.

(** Exceptions.  Only [UndefinedValueError] carries its message; the
    messages of library exceptions are not modelled. *)
Inductive exn :=
| UndefinedValueError (msg : string)
| UnsupportedParser (msg : string)
| ValueError
| KeyError (key : string)
| NoSectionError (section : string)
| NoOptionError (option section : string)
| DuplicateSectionError (section : string)
| InterpolationDepthError
| InterpolationSyntaxError
| InterpolationMissingOptionError (var : string)
| ParsingError
| OSError
| UserError (msg : string).

Inductive result (A : Type) :=
| Ok (a : A)
| Raise (e : exn).
Arguments Ok {A} a.
Arguments Raise {A} e.

Definition bind {A B} (r : result A) (k : A → result B) : result B :=
  match r with
  | Ok a => k a
  | Raise e => Raise e
  end.

Notation "'let!' x := r 'in' k" := (bind r (λ x, k))
  (at level 10, x pattern, r at level 100, k at level 200,
   format "'[v' 'let!'  x  :=  r  'in'  '/' k ']'").

(* ===================================================================== *)
(** * The library's [ConfigParser]

    [RepositoryIni] delegates to [configparser.ConfigParser].  The part of
    it that the repositories call is modelled here after the CPython 3
    library: option names go through [optionxform] (lower case), the
    [DEFAULT] section backs every other section, values are checked by
    [BasicInterpolation.before_set] when stored and expanded by
    [BasicInterpolation.before_get] when read. *)
(* ===================================================================== *)

Module configparser.

Definition default_section : string := "DEFAULT".

(** [MAX_INTERPOLATION_DEPTH] *)
Definition MAX_INTERPOLATION_DEPTH : nat := 10.

Record ConfigParser := mkParser {
  _defaults : gmap string string;
  _sections : gmap string (gmap string string)
}.

(** [ConfigParser()] *)
Definition new : ConfigParser := mkParser ∅ ∅.

Definition optionxform (optionstr : string) : string := Str.lower optionstr.

(** [parser.sections()], as a set of names. *)
Definition sections (self : ConfigParser) : gset string :=
  dom (_sections self).

Definition has_option (self : ConfigParser) (section option : string) : bool :=
  if bool_decide (section = "" ∨ section = default_section) then
    bool_decide (is_Some (_defaults self !! optionxform option))
  else
    match _sections self !! section with
    | None => false
    | Some sectdict =>
        let option := optionxform option in
        bool_decide (is_Some (sectdict !! option))
        || bool_decide (is_Some (_defaults self !! option))
    end.

(** [_unify_values(section, None)]: the section's options chained before
    the defaults. *)
Definition _unify_values (self : ConfigParser) (section : string)
  : result (gmap string string) :=
  match _sections self !! section with
  | Some sectiondict => Ok (sectiondict ∪ _defaults self)
  | None =>
      if bool_decide (section = default_section) then Ok (_defaults self)
      else Raise (NoSectionError section)
  end.

(** A match of [_KEYCRE], the pattern [%\(([^)]+)\)s], at the start of
    [rest]: the captured name and the text after the match. *)
Definition not_rparen (c : ascii) : bool := negb (Ascii.eqb c ")"%char).

Fixpoint take_while (p : ascii → bool) (l : list ascii) : list ascii :=
  match l with
  | c :: l' => if p c then c :: take_while p l' else []
  | [] => []
  end.

Fixpoint drop_while (p : ascii → bool) (l : list ascii) : list ascii :=
  match l with
  | c :: l' => if p c then drop_while p l' else l
  | [] => []
  end.

Definition _KEYCRE_match (rest : list ascii)
  : option (list ascii * list ascii) :=
  match rest with
  | "%" :: "(" :: r =>
      match take_while not_rparen r, drop_while not_rparen r with
      | (_ :: _) as name, ")" :: "s" :: r' => Some (name, r')
      | _, _ => None
      end
  | _ => None
  end%char.

Definition not_percent (c : ascii) : bool := negb (Ascii.eqb c "%"%char).

(** [_interpolate_some]; [depth_left] is
    [MAX_INTERPOLATION_DEPTH + 1 - depth], and the appended pieces are
    returned instead of being pushed on [accum]. *)
Fixpoint _interpolate_some (map : gmap string string) (depth_left : nat)
    (rest : list ascii) {struct depth_left} : result (list ascii) :=
  match depth_left with
  | 0 => Raise InterpolationDepthError
  | S depth_left =>
      (fix while (n : nat) (rest : list ascii) {struct n}
         : result (list ascii) :=
         match n, rest with
         | 0, _ | _, [] => Ok []
         | S n, _ =>
             let pre := take_while not_percent rest in
             match drop_while not_percent rest with
             | [] => Ok pre
             | "%" :: "%" :: rest' =>
                 let! tail := while n rest' in
                 Ok (pre ++ "%" :: tail)
             | ("%" :: "(" :: _) as rest' =>
                 match _KEYCRE_match rest' with
                 | None => Raise InterpolationSyntaxError
                 | Some (name, rest'') =>
                     let var := optionxform (Str.of_chars name) in
                     match map !! var with
                     | None => Raise (InterpolationMissingOptionError var)
                     | Some v =>
                         let! piece :=
                           if Str.contains_char "%"%char v
                           then _interpolate_some map depth_left (Str.chars v)
                           else Ok (Str.chars v) in
                         let! tail := while n rest'' in
                         Ok (pre ++ piece ++ tail)
                     end
                 end
             | _ => Raise InterpolationSyntaxError
             end
         end%char) (length rest) rest
  end.

(** [BasicInterpolation.before_get] *)
Definition before_get (defaults : gmap string string) (value : string)
  : result string :=
  let! L := _interpolate_some defaults MAX_INTERPOLATION_DEPTH
              (Str.chars value) in
  Ok (Str.of_chars L).

(** [value.replace('%%', '')] *)
Fixpoint remove_escaped_percent (l : list ascii) : list ascii :=
  match l with
  | "%" :: "%" :: l' => remove_escaped_percent l'
  | c :: l' => c :: remove_escaped_percent l'
  | [] => []
  end%char.

(** [_KEYCRE.sub('', tmp_value)] *)
Fixpoint _KEYCRE_sub (n : nat) (l : list ascii) : list ascii :=
  match n, l with
  | 0, _ | _, [] => []
  | S n, c :: l' =>
      match _KEYCRE_match l with
      | Some (_, rest) => _KEYCRE_sub n rest
      | None => c :: _KEYCRE_sub n l'
      end
  end.

(** [BasicInterpolation.before_set] *)
Definition before_set (value : string) : result string :=
  let tmp_value := remove_escaped_percent (Str.chars value) in
  let tmp_value := _KEYCRE_sub (length tmp_value) tmp_value in
  if existsb (Ascii.eqb "%"%char) tmp_value then Raise ValueError
  else Ok value.

(** [parser.get(section, option)] *)
Definition get (self : ConfigParser) (section option : string)
  : result string :=
  let! d := _unify_values self section in
  let option := optionxform option in
  match d !! option with
  | None => Raise (NoOptionError option section)
  | Some value => before_get d value
  end.

(** [parser.set(section, option, value)] with [value] a string. *)
Definition set (self : ConfigParser) (section option value : string)
  : result ConfigParser :=
  let! value := if bool_decide (value = "") then Ok value
                else before_set value in
  if bool_decide (section = "" ∨ section = default_section) then
    Ok (mkParser (<[optionxform option := value]> (_defaults self))
                 (_sections self))
  else
    match _sections self !! section with
    | None => Raise (NoSectionError section)
    | Some sectdict =>
        Ok (mkParser (_defaults self)
              (<[section := <[optionxform option := value]> sectdict]>
                 (_sections self)))
    end.

Definition add_section (self : ConfigParser) (section : string)
  : result ConfigParser :=
  if bool_decide (section = default_section) then Raise ValueError
  else if bool_decide (section ∈ sections self)
  then Raise (DuplicateSectionError section)
  else Ok (mkParser (_defaults self) (<[section := ∅]> (_sections self))).

Definition remove_option (self : ConfigParser) (section option : string)
  : result ConfigParser :=
  if bool_decide (section = "" ∨ section = default_section) then
    Ok (mkParser (delete (optionxform option) (_defaults self))
                 (_sections self))
  else
    match _sections self !! section with
    | None => Raise (NoSectionError section)
    | Some sectdict =>
        Ok (mkParser (_defaults self)
              (<[section := delete (optionxform option) sectdict]>
                 (_sections self)))
    end.

Definition remove_section (self : ConfigParser) (section : string)
  : ConfigParser :=
  mkParser (_defaults self) (delete section (_sections self)).

End configparser.

(* ===================================================================== *)
(** * The process state *)
(* ===================================================================== *)

(** An absolute, normalised POSIX path, as [os.path.abspath] returns it, is
    the list of its components with the innermost one first: [[]] is the
    root directory and ["app"; "srv"] is [/srv/app]. *)
Definition path := list string.

(** [environ] is [os.environ]; [RepositoryIni_SECTION] is the class
    attribute [RepositoryIni.SECTION]; [files] maps each regular file to its
    lines. *)
Record World := mkWorld {
  environ : gmap string string;
  RepositoryIni_SECTION : string;
  files : gmap path (list string)
}.

(** The state of a fresh interpreter that has imported the module. *)
Definition initial_world (env : gmap string string)
    (fs : gmap path (list string)) : World :=
  mkWorld env "settings" fs.

Definition set_environ (w : World) (env : gmap string string) : World :=
  mkWorld env (RepositoryIni_SECTION w) (files w).

Module os_path.
Definition sep_root : path := [].
Definition join (p : path) (name : string) : path := name :: p.
Definition dirname (p : path) : path := tail p.
Definition basename (p : path) : string := default "" (head p).
Definition isfile (w : World) (p : path) : bool :=
  bool_decide (is_Some (files w !! p)).
Definition exists_ (w : World) (p : path) : bool := isfile w p.
End os_path.

(** What [parser.read_file] makes of a file's lines and what
    [parser.write] prints: the INI syntax itself is the library's. *)
Class IniFormat := {
  read_file : list string → result configparser.ConfigParser;
  write : configparser.ConfigParser → list string
}.


(* ===================================================================== *)
(** * Repositories *)
(* ===================================================================== *)

Module RepositoryEmpty.
Definition contains (key : string) : bool := false.
Definition getitem (key : string) : result pyval := Ok PNone.
End RepositoryEmpty.

Module RepositoryIni.
Import configparser.

Record t := mk { parser : ConfigParser }.

(** The class attribute, read through [self.SECTION]. *)
Definition SECTION (w : World) : string := RepositoryIni_SECTION w.

Definition init `{IniFormat} (w : World) (source : path) : result t :=
  match files w !! source with
  | None => Raise OSError
  | Some file_ =>
      let! parser := read_file file_ in
      Ok (mk parser)
  end.

Definition contains (w : World) (self : t) (key : string) : bool :=
  bool_decide (is_Some (environ w !! key))
  || has_option (parser self) (SECTION w) key.

Definition getitem (w : World) (self : t) (key : string) : result pyval :=
  let! v := get (parser self) (SECTION w) key in
  Ok (PStr v).
End RepositoryIni.

Module WritableRepositoryIni.
Import configparser.

(** The instance attribute [SECTION] shadows the class attribute. *)
Record t := mk {
  parser : ConfigParser;
  SECTION : string;
  source : path
}.

Definition _save `{IniFormat} (w : World) (self : t) : World :=
  mkWorld (environ w) (RepositoryIni_SECTION w)
          (<[source self := write (parser self)]> (files w)).

(** [Path(source).touch()] *)
Definition touch (w : World) (source : path) : World :=
  mkWorld (environ w) (RepositoryIni_SECTION w) (<[source := []]> (files w)).

(** [__init__(source, section='default', create_section=True)]; the
    world is returned as the constructor leaves it, also when it raises. *)
Definition init `{IniFormat} (w : World) (source : path)
    (section : option pyval) (create_section : option bool)
  : result t * World :=
  let section := default (PStr "default") section in
  let create_section := default true create_section in
  let SECTION := py_str section in
  let w := if os_path.exists_ w source then w else touch w source in
  match RepositoryIni.init w source with
  | Raise e => (Raise e, w)
  | Ok base =>
      let parser := RepositoryIni.parser base in
      if create_section && bool_decide (SECTION ∉ sections parser) then
        match add_section parser SECTION with
        | Raise e => (Raise e, w)
        | Ok parser =>
            let self := mk parser SECTION source in
            (Ok self, _save w self)
        end
      else (Ok (mk parser SECTION source), w)
  end.

Definition contains (self : t) (key : string) : bool :=
  has_option (parser self) (SECTION self) key.

(** Inherited [RepositoryIni.__getitem__]. *)
Definition getitem (self : t) (key : string) : result pyval :=
  let! v := get (parser self) (SECTION self) key in
  Ok (PStr v).

Definition setitem `{IniFormat} (w : World) (self : t) (key : string)
    (value : pyval) : result t * World :=
  match set (parser self) (SECTION self) key (py_str value) with
  | Raise e => (Raise e, w)
  | Ok parser =>
      let self := mk parser (SECTION self) (source self) in
      (Ok self, _save w self)
  end.

Definition delitem `{IniFormat} (w : World) (self : t) (key : string)
  : result t * World :=
  match remove_option (parser self) (SECTION self) key with
  | Raise e => (Raise e, w)
  | Ok parser =>
      let self := mk parser (SECTION self) (source self) in
      (Ok self, _save w self)
  end.

Definition delattr `{IniFormat} (w : World) (self : t) (item : string)
  : t * World :=
  if bool_decide (item = "SECTION") then
    let self := mk (remove_section (parser self) (SECTION self))
                   (SECTION self) (source self) in
    (self, _save w self)
  else (self, w).
End WritableRepositoryIni.

Module RepositoryEnv.

Record t := mk { data : gmap string string }.

Definition squote : ascii := "'"%char.
Definition dquote : ascii := "034"%char.
Definition quotes : string := String squote (String dquote EmptyString).

(** The body of the loop over the lines of the file. *)
Definition read_line (data : gmap string string) (line : string)
  : gmap string string :=
  let line := Str.strip line in
  if bool_decide (line = "") || Str.startswith_char "#" line
     || negb (Str.contains_char "=" line)
  then data
  else
    match Str.split_first "=" (Str.chars line) with
    | None => data
    | Some (k, v) =>
        let k := Str.strip (Str.of_chars k) in
        let v := Str.strip (Str.of_chars v) in
        let v :=
          if (2 <=? Str.len v)
             && (bool_decide (Str.first v = Some squote)
                 && bool_decide (Str.last v = Some squote)
                 || bool_decide (Str.first v = Some dquote)
                    && bool_decide (Str.last v = Some dquote))
          then Str.strip_chars quotes v
          else v in
        <[k := v]> data
    end.

Definition init (w : World) (source : path) : result t :=
  match files w !! source with
  | None => Raise OSError
  | Some file_ => Ok (mk (fold_left read_line file_ ∅))
  end.

Definition contains (w : World) (self : t) (key : string) : bool :=
  bool_decide (is_Some (environ w !! key))
  || bool_decide (is_Some (data self !! key)).

Definition getitem (self : t) (key : string) : result pyval :=
  match data self !! key with
  | Some v => Ok (PStr v)
  | None => Raise (KeyError key)
  end.
End RepositoryEnv.

(** A repository object is an instance of one of the four classes;
    [key in repository] and [repository[key]] dispatch on the class. *)
Inductive Repository :=
| Empty
| Ini (r : RepositoryIni.t)
| WritableIni (r : WritableRepositoryIni.t)
| Env (r : RepositoryEnv.t).

Definition contains (w : World) (repository : Repository) (key : string)
  : bool :=
  match repository with
  | Empty => RepositoryEmpty.contains key
  | Ini r => RepositoryIni.contains w r key
  | WritableIni r => WritableRepositoryIni.contains r key
  | Env r => RepositoryEnv.contains w r key
  end.

Definition getitem (w : World) (repository : Repository) (key : string)
  : result pyval :=
  match repository with
  | Empty => RepositoryEmpty.getitem key
  | Ini r => RepositoryIni.getitem w r key
  | WritableIni r => WritableRepositoryIni.getitem r key
  | Env r => RepositoryEnv.getitem r key
  end.

(* ===================================================================== *)
(** * Config *)
(* ===================================================================== *)

(** [distutils.util.strtobool] *)
Definition strtobool (val : string) : result Z :=
  let val := Str.lower val in
  if bool_decide (val ∈ ["y"; "yes"; "t"; "true"; "on"; "1"]) then Ok 1%Z
  else if bool_decide (val ∈ ["n"; "no"; "f"; "false"; "off"; "0"]) then Ok 0%Z
  else Raise ValueError.

(** [bool(x)] on a string and on an integer. *)
Definition bool_of_str (s : string) : bool := negb (bool_decide (s = "")).
Definition bool_of_int (z : Z) : bool := negb (z =? 0)%Z.

(** The [cast] argument: left out ([undefined]), the type [bool] itself, or
    any other callable of one argument. *)
Inductive cast_arg :=
| CastUndefined
| CastBool
| CastCallable (f : pyval → result pyval).

Module Config.

Record t := mk { repository : Repository }.

Definition _cast_boolean (value : pyval) : result pyval :=
  let value := py_str value in
  if bool_decide (value = "") then Ok (PBool (bool_of_str value))
  else
    let! b := strtobool value in
    Ok (PBool (bool_of_int b)).

Definition _cast_do_nothing (value : pyval) : result pyval := Ok value.

Definition not_found_message (option : string) : string :=
  option +:+ " not found. Declare it as envvar or define a default value.".

(** [get(option, default=undefined, cast=undefined)]; [default = None]
    stands for the undefined marker. *)
Definition get (w : World) (self : t) (option : string)
    (default : Datatypes.option pyval) (cast : cast_arg) : result pyval :=
  let! value :=
    match environ w !! option with
    | Some v => Ok (PStr v)
    | None =>
        if contains w (repository self) option
        then getitem w (repository self) option
        else
          match default with
          | None => Raise (UndefinedValueError (not_found_message option))
          | Some default => Ok default
          end
    end in
  let cast :=
    match cast with
    | CastUndefined => _cast_do_nothing
    | CastBool => _cast_boolean
    | CastCallable f => f
    end in
  cast value.

(** [__call__] *)
Definition call := get.

End Config.

(* ===================================================================== *)
(** * WritableConfig *)
(* ===================================================================== *)

Module WritableConfig.

Record t := mk { repository : WritableRepositoryIni.t }.

(** [WritableConfig(repository)] with an existing writable repository. *)
Definition init_wrap (repository : WritableRepositoryIni.t) : t :=
  mk repository.

(** [WritableConfig(source, section=..., create_section=...)] *)
Definition init `{IniFormat} (w : World) (source : path)
    (section : option pyval) (create_section : option bool)
  : result t * World :=
  match WritableRepositoryIni.init w source section create_section with
  | (Ok repository, w) => (Ok (mk repository), w)
  | (Raise e, w) => (Raise e, w)
  end.

Definition get (w : World) (self : t) (option : string)
    (default : Datatypes.option pyval) (cast : cast_arg) : result pyval :=
  let! value :=
    if contains w (WritableIni (repository self)) option
    then getitem w (WritableIni (repository self)) option
    else
      match default with
      | None =>
          Raise (UndefinedValueError (Config.not_found_message option))
      | Some default => Ok default
      end in
  let cast :=
    match cast with
    | CastUndefined => Config._cast_do_nothing
    | CastBool => Config._cast_boolean
    | CastCallable f => f
    end in
  cast value.

Definition getitem_ (w : World) (self : t) (key : string) : result pyval :=
  get w self key None CastUndefined.

Definition contains_ (w : World) (self : t) (key : string) : bool :=
  contains w (WritableIni (repository self)) key.

Definition setitem `{IniFormat} (w : World) (self : t) (key : string)
    (value : pyval) : result t * World :=
  match WritableRepositoryIni.setitem w (repository self) key value with
  | (Ok repository, w) => (Ok (mk repository), w)
  | (Raise e, w) => (Raise e, w)
  end.

Definition delitem `{IniFormat} (w : World) (self : t) (key : string)
  : result t * World :=
  match WritableRepositoryIni.delitem w (repository self) key with
  | (Ok repository, w) => (Ok (mk repository), w)
  | (Raise e, w) => (Raise e, w)
  end.

Definition delattr `{IniFormat} (w : World) (self : t) (item : string)
  : t * World :=
  if bool_decide (item ∈ ["section"; "SECTION"]) then
    let '(repository, w) :=
      WritableRepositoryIni.delattr w (repository self) "SECTION" in
    (mk repository, w)
  else (self, w).

End WritableConfig.

(* ===================================================================== *)
(** * AutoConfig and CustomConfig *)
(* ===================================================================== *)

(** The repository classes, as values. *)
Inductive repository_class :=
| RepositoryEmptyClass
| RepositoryIniClass
| WritableRepositoryIniClass
| RepositoryEnvClass.

Global Instance repository_class_eq_dec : EqDecision repository_class.
Proof. solve_decision. Defined.

(** The classes that can occur as values of [SUPPORTED]. *)
Inductive supported_class := IniClass | EnvClass.

Module AutoConfig.

Record t := mk {
  SUPPORTED : list (string * supported_class);
  search_path : option path;
  config : option Config.t
}.

(** The class attribute [SUPPORTED], an ordered dictionary. *)
Definition SUPPORTED_default : list (string * supported_class) :=
  [("settings.ini", IniClass); (".env", EnvClass)].

(** [AutoConfig(search_path=None)] *)
Definition init (search_path : option path) : t :=
  mk SUPPORTED_default search_path None.

(** The loop over the supported file names in one directory. *)
Fixpoint first_file (w : World) (p : path) (names : list string)
  : option path :=
  match names with
  | [] => None
  | configfile :: names =>
      let filename := os_path.join p configfile in
      if os_path.isfile w filename then Some filename
      else first_file w p names
  end.

(** [_find_file(path)]; [None] is the empty string that the code returns
    when nothing is found.  The match on [p] computes
    [parent = os.path.dirname(path)]: the parent of the root is the root. *)
Fixpoint _find_file (w : World) (names : list string) (p : path)
  : option path :=
  match first_file w p names with
  | Some filename => Some filename
  | None =>
      match p with
      | [] => None
      | _ :: parent =>
          if bool_decide (parent ≠ os_path.sep_root)
          then _find_file w names parent
          else None
      end
  end.

(** [SUPPORTED.get(name, RepositoryEmpty)] *)
Fixpoint supported_get (name : string)
    (supported : list (string * supported_class)) : option supported_class :=
  match supported with
  | [] => None
  | (k, cls) :: supported =>
      if bool_decide (k = name) then Some cls
      else supported_get name supported
  end.

(** [_load(path)]: the [Config] that is stored in [self.config].
    [os.path.isfile] does not raise, so the handler around the search is
    never entered. *)
Definition _load `{IniFormat} (w : World) (self : t) (p : path)
  : result Config.t :=
  let filename := _find_file w (SUPPORTED self).*1 p in
  let name := from_option os_path.basename "" filename in
  let! repository :=
    match supported_get name (SUPPORTED self), filename with
    | None, _ => Ok Empty
    | Some _, None => Raise OSError
    | Some IniClass, Some f =>
        let! r := RepositoryIni.init w f in Ok (Ini r)
    | Some EnvClass, Some f =>
        let! r := RepositoryEnv.init w f in Ok (Env r)
    end in
  Ok (Config.mk repository).

(** [__call__]; [caller_path] is what [_caller_path()] would return. *)
Definition call `{IniFormat} (w : World) (self : t) (caller_path : path)
    (option : string) (default : Datatypes.option pyval) (cast : cast_arg)
  : result pyval * t :=
  match config self with
  | Some config => (Config.call w config option default cast, self)
  | None =>
      match _load w self (from_option id caller_path (search_path self)) with
      | Raise e => (Raise e, self)
      | Ok config =>
          (Config.call w config option default cast,
           mk (SUPPORTED self) (search_path self) (Some config))
      end
  end.

End AutoConfig.

Module CustomConfig.

Definition unsupported_message : string :=
  "Unsupported Config Parser, should be : RepositoryEnv or RepositoryIni".

(** [CustomConfig(config_filename, repository_class, search_path=None,
    section=None)]: with a section it assigns the class attribute
    [RepositoryIni.SECTION]. *)
Definition init (w : World) (config_filename : string)
    (repository_class : repository_class) (search_path : option path)
    (section : option string) : result AutoConfig.t * World :=
  match repository_class with
  | RepositoryIniClass =>
      let w :=
        match section with
        | Some s =>
            if bool_decide (s = "") then w
            else mkWorld (environ w) s (files w)
        | None => w
        end in
      (Ok (AutoConfig.mk [(config_filename, IniClass)] search_path None), w)
  | RepositoryEnvClass =>
      (Ok (AutoConfig.mk [(config_filename, EnvClass)] search_path None), w)
  | _ => (Raise (UnsupportedParser unsupported_message), w)
  end.

End CustomConfig.

(* ===================================================================== *)
(** * The library's [shlex], as [Csv] configures it

    [Csv.__call__] builds [shlex(value, posix=True)], replaces its
    [whitespace] by the delimiter and sets [whitespace_split].  The lexer
    below is [shlex.read_token] of CPython 3 for [posix=True] and the
    default empty [punctuation_chars]; the branches that need another
    setting are left out. *)
(* ===================================================================== *)

Module shlex.

Record t := mk {
  instream : list ascii;
  state : option ascii;
  token : list ascii;
  pushback : list (list ascii);
  whitespace : string;
  whitespace_split : bool
}.

Definition commenters : string := "#".
Definition quotes : string := RepositoryEnv.quotes.
Definition escape : string := "\".
Definition escapedquotes : string := String RepositoryEnv.dquote EmptyString.

(** [nextchar in self.wordchars], the POSIX set: ASCII letters, digits,
    the underscore and the Latin-1 letters. *)
Definition wordchar (c : ascii) : bool :=
  let n := Str.code c in
  ((97 <=? n) && (n <=? 122) || (65 <=? n) && (n <=? 90)
   || (48 <=? n) && (n <=? 57) || (n =? 95)
   || (223 <=? n) && (n <=? 255) && negb (n =? 247)
   || (192 <=? n) && (n <=? 222) && negb (n =? 215))%N.

(** [shlex(value, posix=True)] *)
Definition init (value : string) : t :=
  mk (Str.chars value) (Some " "%char) [] []
     (String " " (String "009" (String "013" (String "010" EmptyString))))
     false.

(** [self.instream.readline()] *)
Fixpoint readline (l : list ascii) : list ascii :=
  match l with
  | [] => []
  | c :: l' => if Ascii.eqb c "010"%char then l' else readline l'
  end.

Definition with_stream (self : t) (l : list ascii) : t :=
  mk l (state self) (token self) (pushback self)
     (whitespace self) (whitespace_split self).
Definition with_state (self : t) (st : option ascii) : t :=
  mk (instream self) st (token self) (pushback self)
     (whitespace self) (whitespace_split self).
Definition with_token (self : t) (tok : list ascii) : t :=
  mk (instream self) (state self) tok (pushback self)
     (whitespace self) (whitespace_split self).
Definition push (self : t) (tok : list ascii) : t :=
  mk (instream self) (state self) (token self) (tok :: pushback self)
     (whitespace self) (whitespace_split self).

Definition state_is (self : t) (c : ascii) : bool :=
  bool_decide (state self = Some c).
Definition state_in (self : t) (set : string) : bool :=
  match state self with
  | Some c => Str.mem c set
  | None => false
  end.

(** The [while True] loop of [read_token]; it returns the lexer and the
    local [quoted] at the [break].  Every turn reads one character, so
    [fuel] above the length of the stream is never used up. *)
Fixpoint read_token_loop (fuel : nat) (self : t) (quoted : bool)
    (escapedstate : ascii) : result (t * bool) :=
  match fuel with
  | 0 => Raise (UserError "fuel")
  | S fuel =>
      let nextchar := head (instream self) in
      let self := with_stream self (tail (instream self)) in
      let continue self := read_token_loop fuel self quoted escapedstate in
      let break_if_token self :=
        if negb (bool_decide (token self = [])) || quoted
        then Ok (self, quoted) else continue self in
      match state self with
      | None => Ok (with_token self [], quoted)
      | Some st =>
          if state_is self " " then
            match nextchar with
            | None => Ok (with_state self None, quoted)
            | Some c =>
                if Str.mem c (whitespace self) then break_if_token self
                else if Str.mem c commenters then
                  continue (with_stream self (readline (instream self)))
                else if Str.mem c escape then
                  read_token_loop fuel (with_state self (Some c)) quoted "a"
                else if wordchar c then
                  continue (with_state (with_token self [c]) (Some "a"%char))
                else if Str.mem c quotes then
                  continue (with_state self (Some c))
                else if whitespace_split self then
                  continue (with_state (with_token self [c]) (Some "a"%char))
                else
                  break_if_token (with_token self [c])
            end
          else if state_in self quotes then
            match nextchar with
            | None => Raise ValueError
            | Some c =>
                if Ascii.eqb c st then
                  read_token_loop fuel (with_state self (Some "a"%char))
                    true escapedstate
                else if Str.mem c escape && state_in self escapedquotes then
                  read_token_loop fuel (with_state self (Some c)) true st
                else
                  read_token_loop fuel (with_token self (token self ++ [c]))
                    true escapedstate
            end
          else if state_in self escape then
            match nextchar with
            | None => Raise ValueError
            | Some c =>
                let self :=
                  if Str.mem escapedstate quotes
                     && negb (Ascii.eqb c st)
                     && negb (Ascii.eqb c escapedstate)
                  then with_token self (token self ++ [st]) else self in
                continue (with_state (with_token self (token self ++ [c]))
                            (Some escapedstate))
            end
          else if state_is self "a" then
            match nextchar with
            | None => Ok (with_state self None, quoted)
            | Some c =>
                if Str.mem c (whitespace self) then
                  break_if_token (with_state self (Some " "%char))
                else if Str.mem c commenters then
                  break_if_token
                    (with_state
                       (with_stream self (readline (instream self)))
                       (Some " "%char))
                else if Str.mem c quotes then
                  continue (with_state self (Some c))
                else if Str.mem c escape then
                  read_token_loop fuel (with_state self (Some c)) quoted "a"
                else if wordchar c || Str.mem c quotes
                        || whitespace_split self then
                  continue (with_token self (token self ++ [c]))
                else
                  break_if_token
                    (with_state (push self [c]) (Some " "%char))
            end
          else continue self
      end
  end.

(** [read_token()]: the token, or [None] for the end of the input. *)
Definition read_token (self : t) : result (option string * t) :=
  let! (self, quoted) :=
    read_token_loop (S (length (instream self))) self false " " in
  let result := token self in
  let self := with_token self [] in
  if negb quoted && bool_decide (result = []) then Ok (None, self)
  else Ok (Some (Str.of_chars result), self).

(** [get_token()] *)
Definition get_token (self : t) : result (option string * t) :=
  match pushback self with
  | tok :: rest =>
      Ok (Some (Str.of_chars tok),
          mk (instream self) (state self) (token self) rest
             (whitespace self) (whitespace_split self))
  | [] => read_token self
  end.

End shlex.

(* ===================================================================== *)
(** * Csv *)
(* ===================================================================== *)

Module Csv.

Record t (A B : Type) := mk {
  cast : string → result A;
  delimiter : string;
  strip : string;
  post_process : list A → result B
}.
Arguments mk {A B}.
Arguments cast {A B}.
Arguments delimiter {A B}.
Arguments strip {A B}.
Arguments post_process {A B}.

(** [string.whitespace] *)
Definition string_whitespace : string :=
  String " " (String "009" (String "010" (String "013"
    (String "011" (String "012" EmptyString))))).

(** [Csv()]: [cast=text_type], [delimiter=','],
    [strip=string.whitespace], [post_process=list]. *)
Definition default : t string (list string) :=
  mk (λ s, Ok s) "," string_whitespace (λ l, Ok l).

Section call.
Context {A B : Type} (self : t A B).

Definition transform (s : string) : result A :=
  cast self (Str.strip_chars (strip self) s).

(** The generator [transform(s) for s in splitter], consumed item by
    item. *)
Fixpoint items (fuel : nat) (splitter : shlex.t) : result (list A) :=
  match fuel with
  | 0 => Raise (UserError "fuel")
  | S fuel =>
      let! (tok, splitter) := shlex.get_token splitter in
      match tok with
      | None => Ok []
      | Some s =>
          let! x := transform s in
          let! xs := items fuel splitter in
          Ok (x :: xs)
      end
  end.

(** [__call__(value)] *)
Definition call (value : string) : result B :=
  let splitter := shlex.init value in
  let splitter :=
    shlex.mk (shlex.instream splitter) (shlex.state splitter)
      (shlex.token splitter) (shlex.pushback splitter)
      (delimiter self) true in
  let! xs := items (S (String.length value)) splitter in
  post_process self xs.
End call.

End Csv.

(* ===================================================================== *)
(** * A reader for plain INI files

    An instance of [IniFormat] for the files used in the examples: section
    headers [[name]] and [key = value] lines, nothing else.  On such files
    it yields what the library's parser yields; on any other line it
    raises. *)
(* ===================================================================== *)

Module plain_ini.
Import configparser.

Definition newline : string := String "010" EmptyString.

(** The name between the brackets of a header line. *)
Definition header (line : string) : option string :=
  match Str.chars line with
  | "["%char :: l =>
      match rev l with
      | "]"%char :: (_ :: _) as name => Some (Str.of_chars (rev name))
      | _ => None
      end
  | _ => None
  end.

Definition plain (line : string) : bool :=
  negb (Str.contains_char ":" line || Str.contains_char "#" line
        || Str.contains_char ";" line || Str.contains_char "%" line).

Definition read_line (st : ConfigParser * option string) (line : string)
  : result (ConfigParser * option string) :=
  let '(parser, cursect) := st in
  let stripped := Str.strip line in
  if bool_decide (stripped = "") then Ok st
  else if negb (plain stripped)
          || negb (bool_decide (Str.lstrip_by Str.isspace (Str.chars line)
                                = Str.chars line))
  then Raise ParsingError
  else
    match header stripped with
    | Some name =>
        if bool_decide (name = default_section) then Ok (parser, Some name)
        else
          let! parser := add_section parser name in
          Ok (parser, Some name)
    | None =>
        match Str.split_first "=" (Str.chars stripped), cursect with
        | Some (k, v), Some section =>
            let k := Str.strip (Str.of_chars k) in
            let v := Str.strip (Str.of_chars v) in
            let existing :=
              if bool_decide (section = default_section)
              then _defaults parser !! optionxform k
              else _sections parser !! section ≫= (.!! optionxform k) in
            if bool_decide (is_Some existing) then Raise ParsingError
            else
              let! parser := set parser section k v in
              Ok (parser, Some section)
        | _, _ => Raise ParsingError
        end
    end.

Fixpoint read_lines (st : ConfigParser * option string) (lines : list string)
  : result ConfigParser :=
  match lines with
  | [] => Ok st.1
  | line :: lines =>
      let! st := read_line st line in
      read_lines st lines
  end.

Definition write_section (name : string) (d : gmap string string)
  : list string :=
  ("[" +:+ name +:+ "]" +:+ newline)
  :: ((λ kv, kv.1 +:+ " = " +:+ kv.2 +:+ newline) <$> map_to_list d)
  ++ [newline].

Definition write_parser (parser : ConfigParser) : list string :=
  (if bool_decide (_defaults parser = ∅) then []
   else write_section default_section (_defaults parser))
  ++ mjoin ((λ sd, write_section sd.1 sd.2) <$> map_to_list (_sections parser)).

Definition format : IniFormat :=
  {| read_file := read_lines (new, None); write := write_parser |}.

End plain_ini.

(* ===================================================================== *)
(** * Choices *)
(* ===================================================================== *)

(** [a == b] on the modelled values: a boolean is the integer 0 or 1. *)
Definition py_int (v : pyval) : option Z :=
  match v with
  | PBool true => Some 1%Z
  | PBool false => Some 0%Z
  | PInt z => Some z
  | _ => None
  end.

Definition py_eq (a b : pyval) : bool :=
  match a, b with
  | PNone, PNone => true
  | PStr s, PStr t => bool_decide (s = t)
  | _, _ =>
      match py_int a, py_int b with
      | Some x, Some y => (x =? y)%Z
      | _, _ => false
      end
  end.

(** [x in values] on a list *)
Definition py_in (x : pyval) (values : list pyval) : bool :=
  existsb (py_eq x) values.

(** [text_type], that is [str], as a cast. *)
Definition text_type (value : pyval) : result pyval :=
  Ok (PStr (py_str value)).

Module Choices.

Record t := mk {
  flat : list pyval;
  cast : pyval → result pyval;
  choices : list (pyval * pyval);
  _valid_values : list pyval
}.

(** [Choices(flat=None, cast=text_type, choices=None)]: an argument left
    out or [None] is [None] here. *)
Definition init (flat : option (list pyval))
    (cast : option (pyval → result pyval))
    (choices : option (list (pyval * pyval))) : t :=
  let flat := default [] flat in
  let cast := default text_type cast in
  let choices := default [] choices in
  mk flat cast choices (flat ++ choices.*1).

(** [__call__(value)] *)
Definition call (self : t) (value : pyval) : result pyval :=
  let! transform := cast self value in
  if negb (py_in transform (_valid_values self)) then Raise ValueError
  else Ok transform.

End Choices.

(* ===================================================================== *)
(** * Specification-side definitions *)
(* ===================================================================== *)

(** Step 4 of [get]: the cast that is applied to the resolved value. *)
Definition cast_step (cast : cast_arg) (value : pyval) : result pyval :=
  match cast with
  | CastUndefined => Ok value
  | CastBool => Config._cast_boolean value
  | CastCallable f => f value
  end.

(** The repository's own store defines [key], the environment left aside. *)
Definition defines (w : World) (repository : Repository) (key : string)
  : bool :=
  match repository with
  | Empty => false
  | Ini r =>
      configparser.has_option (RepositoryIni.parser r)
        (RepositoryIni_SECTION w) key
  | WritableIni r =>
      configparser.has_option (WritableRepositoryIni.parser r)
        (WritableRepositoryIni.SECTION r) key
  | Env r => bool_decide (is_Some (RepositoryEnv.data r !! key))
  end.

(** The boolean cast in the words of its description: the empty string is
    false, the listed tokens are recognised whatever the case of their
    letters, anything else is an error. *)
Definition ascii_upper (c : ascii) : bool :=
  ((65 <=? Str.code c) && (Str.code c <=? 90))%N.

Definition same_letter (a b : ascii) : bool :=
  Ascii.eqb a b
  || ascii_upper a && (Str.code a + 32 =? Str.code b)%N
  || ascii_upper b && (Str.code b + 32 =? Str.code a)%N.

Fixpoint eq_ignore_case (s t : string) : bool :=
  match s, t with
  | EmptyString, EmptyString => true
  | String a s, String b t => same_letter a b && eq_ignore_case s t
  | _, _ => false
  end.

Definition true_tokens : list string := ["y"; "yes"; "t"; "true"; "on"; "1"].
Definition false_tokens : list string := ["n"; "no"; "f"; "false"; "off"; "0"].

Definition spec_cast_boolean (s : string) : result bool :=
  if bool_decide (s = "") then Ok false
  else if existsb (eq_ignore_case s) true_tokens then Ok true
  else if existsb (eq_ignore_case s) false_tokens then Ok false
  else Raise ValueError.

(** Lower-case ASCII letters and digits, the characters of the tokens. *)
Definition lowerish (b : ascii) : bool :=
  ((97 <=? Str.code b) && (Str.code b <=? 122)
   || (48 <=? Str.code b) && (Str.code b <=? 57))%N.

Definition all_ascii : list ascii := map ascii_of_nat (seq 0 256).





(** A text without a percent sign, on which the interpolation of
    [ConfigParser] has nothing to do. *)
Definition no_percent (l : list ascii) : Prop :=
  forallb configparser.not_percent l = true.

(** One turn of the lexer's loop, with the record updates carried out. *)
Ltac lexer_step :=
  cbn [shlex.read_token_loop];
  unfold shlex.state_is, shlex.state_in, shlex.with_stream, shlex.with_state,
    shlex.with_token, shlex.push;
  cbn [shlex.instream shlex.state shlex.token shlex.pushback
       shlex.whitespace shlex.whitespace_split head tail].

(** ** The lexer's invariants

    The states that [read_token] moves through: past the end, between
    tokens, inside a word, inside quotes, or after a backslash (with the
    state to come back to). *)
Definition lexer_state_ok (st : option ascii) (esc : ascii) : Prop :=
  match st with
  | None => True
  | Some c =>
      c = " "%char ∨ c = "a"%char ∨ c = RepositoryEnv.squote
      ∨ c = RepositoryEnv.dquote
      ∨ (c = "\"%char
         ∧ (esc = "a"%char ∨ esc = RepositoryEnv.squote
            ∨ esc = RepositoryEnv.dquote))
  end.

(** What holds when the loop of [read_token] is left: it raised
    [ValueError] or it stopped between tokens or at the end of the input,
    having read at least one character unless there was none. *)
Definition loop_post (self : shlex.t) (quoted : bool)
    (res : result (shlex.t * bool)) : Prop :=
  match res with
  | Raise e => e = ValueError
  | Ok (self', quoted') =>
      (shlex.state self' = None ∨ shlex.state self' = Some " "%char)
      ∧ shlex.pushback self' = shlex.pushback self
      ∧ shlex.whitespace self' = shlex.whitespace self
      ∧ shlex.whitespace_split self' = true
      ∧ length (shlex.instream self') ≤ length (shlex.instream self)
      ∧ (shlex.instream self = [] →
         quoted' = quoted
         ∧ (shlex.token self' = [] ∨ shlex.token self' = shlex.token self))
      ∧ (shlex.instream self ≠ [] →
         length (shlex.instream self') < length (shlex.instream self))
  end.

(** The lexer between two calls of [read_token], as [Csv] uses it. *)
Definition entry_ok (self : shlex.t) : Prop :=
  (shlex.state self = None ∨ shlex.state self = Some " "%char)
  ∧ shlex.token self = [] ∧ shlex.pushback self = []
  ∧ shlex.whitespace_split self = true.

(** ** Lines of a .env file *)

(** Neither end of the text satisfies [p]: nothing for a strip to remove. *)
Definition ends_clear (p : ascii → bool) (l : list ascii) : bool :=
  negb (from_option p false (head l))
  && negb (from_option p false (head (rev l))).

(** A text made of white space only, and a text that [strip()] leaves as
    it is. *)
Definition blank (s : string) : bool := forallb Str.isspace (Str.chars s).
Definition trimmed (s : string) : bool := ends_clear Str.isspace (Str.chars s).

(** The test that [RepositoryEnv] makes before it removes quotes. *)
Definition quote_wrapped (v : string) : bool :=
  (2 <=? Str.len v)
  && (bool_decide (Str.first v = Some RepositoryEnv.squote)
      && bool_decide (Str.last v = Some RepositoryEnv.squote)
      || bool_decide (Str.first v = Some RepositoryEnv.dquote)
         && bool_decide (Str.last v = Some RepositoryEnv.dquote)).

Definition is_quote (c : ascii) : bool := Str.mem c RepositoryEnv.quotes.

(** ** Items of a Csv value *)




(** ** The text of an integer *)

(** The first character of a decimal numeral: a digit or the minus sign. *)
Definition numeral_start (c : ascii) : bool :=
  ((48 <=? Str.code c) && (Str.code c <=? 57) || (Str.code c =? 45))%N.

(* ===================================================================== *)
(** * Properties *)
(* ===================================================================== *)

Section strings.

Lemma of_chars_chars (s : string) : Str.of_chars (Str.chars s) = s.
Proof. apply string_of_list_ascii_of_string. Qed.

Lemma chars_of_chars (l : list ascii) : Str.chars (Str.of_chars l) = l.
Proof. apply list_ascii_of_string_of_list_ascii. Qed.

Lemma chars_inj (s t : string) : Str.chars s = Str.chars t → s = t.
Proof.
  intros E. rewrite <- (of_chars_chars s), <- (of_chars_chars t).
  now rewrite E.
Qed.

Lemma chars_app (s t : string) :
  Str.chars (s +:+ t) = Str.chars s ++ Str.chars t.
Proof. induction s as [|c s IH]; simpl; [done|]. now rewrite <- IH. Qed.

End strings.

(** ** Config.get *)

Lemma contains_defines (w : World) (repository : Repository) (key : string) :
  environ w !! key = None →
  contains w repository key = defines w repository key.
Proof.
  intros Henv. destruct repository as [|r|r|r]; simpl; try done.
  - unfold RepositoryIni.contains, RepositoryIni.SECTION. now rewrite Henv.
  - unfold RepositoryEnv.contains. now rewrite Henv.
Qed.

Lemma get_cast_step (w : World) (self : Config.t) (option : string)
    (default : Datatypes.option pyval) (cast : cast_arg) :
  Config.get w self option default cast
  = let! value := Config.get w self option default CastUndefined in
    cast_step cast value.
Proof.
  unfold Config.get.
  destruct (environ w !! option); simpl; [by destruct cast|].
  destruct (contains w _ option).
  - destruct (getitem w _ option); simpl; [by destruct cast|done].
  - destruct default; simpl; [by destruct cast|done].
Qed.

(** C1. When the option is in the process environment, [Config.get] and
    the call shorthand resolve it to the environment's string, whatever the
    repository holds and whatever default is passed, and the result is the
    cast step applied to that string. *)
Theorem C1_environment_wins (w : World) (self : Config.t) (option v : string)
    (default : Datatypes.option pyval) (cast : cast_arg) :
  environ w !! option = Some v →
  Config.get w self option default CastUndefined = Ok (PStr v)
  ∧ Config.get w self option default cast = cast_step cast (PStr v)
  ∧ Config.call w self option default cast = cast_step cast (PStr v).
Proof.
  intros Henv. unfold Config.call, Config.get. rewrite Henv; simpl.
  by destruct cast.
Qed.

Lemma C1_environment_wins_witness :
  let w := initial_world {["DEBUG" := "yes"]} ∅ in
  let self := Config.mk (Env (RepositoryEnv.mk {["DEBUG" := "no"]})) in
  environ w !! "DEBUG" = Some "yes"
  ∧ Config.get w self "DEBUG" (Some (PBool false)) CastBool
    = Ok (PBool true).
Proof.
  split; [reflexivity|].
  exact (proj1 (proj2 (C1_environment_wins
    (initial_world {["DEBUG" := "yes"]} ∅)
    (Config.mk (Env (RepositoryEnv.mk {["DEBUG" := "no"]})))
    "DEBUG" "yes" (Some (PBool false)) CastBool eq_refl))).
Defined.

(** C2. When the option is neither in the process environment nor
    defined by the repository, [Config.get] without a default raises
    [UndefinedValueError] with a message that starts with the option's
    name, and with a default it returns the cast step applied to that
    default; [None], [False] and the empty string are defaults like any
    other. *)
Theorem C2_missing_option (w : World) (self : Config.t) (option : string)
    (cast : cast_arg) :
  environ w !! option = None →
  defines w (Config.repository self) option = false →
  Config.get w self option None cast
  = Raise (UndefinedValueError
      (option +:+ " not found. Declare it as envvar or define a default value."))
  ∧ (∀ default : pyval,
       Config.get w self option (Some default) cast = cast_step cast default)
  ∧ Config.get w self option (Some PNone) CastUndefined = Ok PNone
  ∧ Config.get w self option (Some (PBool false)) CastUndefined
    = Ok (PBool false)
  ∧ Config.get w self option (Some (PStr "")) CastUndefined = Ok (PStr "").
Proof.
  intros Henv Hrepo.
  assert (Hc : contains w (Config.repository self) option = false)
    by (by rewrite contains_defines).
  unfold Config.get. rewrite Henv, Hc; simpl.
  repeat split; try done. intros default. by destruct cast.
Qed.

Lemma C2_missing_option_witness :
  let w := initial_world {["HOME" := "/root"]} ∅ in
  let self := Config.mk (Env (RepositoryEnv.mk {["DEBUG" := "no"]})) in
  Config.get w self "PORT" None CastBool
  = Raise (UndefinedValueError
      "PORT not found. Declare it as envvar or define a default value.")
  ∧ Config.get w self "PORT" (Some (PStr "")) CastBool = Ok (PBool false).
Proof.
  pose proof (C2_missing_option
    (initial_world {["HOME" := "/root"]} ∅)
    (Config.mk (Env (RepositoryEnv.mk {["DEBUG" := "no"]})))
    "PORT" CastBool eq_refl eq_refl) as (H1 & H2 & _).
  split; [exact H1 | exact (H2 (PStr ""))].
Defined.

(** C3. [WritableConfig.get] does not depend on the process environment:
    two runs that differ only in the environment give the same value or
    raise the same exception, for every option, default and cast; the same
    holds for the item read and the membership test built on it. *)
Theorem C3_writable_ignores_environment (w : World) (self : WritableConfig.t)
    (env1 env2 : gmap string string) (option : string)
    (default : Datatypes.option pyval) (cast : cast_arg) :
  WritableConfig.get (set_environ w env1) self option default cast
  = WritableConfig.get (set_environ w env2) self option default cast
  ∧ WritableConfig.getitem_ (set_environ w env1) self option
    = WritableConfig.getitem_ (set_environ w env2) self option
  ∧ WritableConfig.contains_ (set_environ w env1) self option
    = WritableConfig.contains_ (set_environ w env2) self option.
Proof.
  unfold WritableConfig.getitem_, WritableConfig.contains_, WritableConfig.get.
  unfold contains, getitem. done.
Qed.

(** ** The boolean cast *)

Section cast_boolean.

Lemma in_all_ascii (a : ascii) : In a all_ascii.
Proof.
  rewrite <- (ascii_nat_embedding a). apply in_map, in_seq.
  pose proof (nat_ascii_bounded a). lia.
Qed.

Lemma lower_char_same_letter (a b : ascii) :
  lowerish b = true →
  Ascii.eqb (Str.lower_char a) b = same_letter a b.
Proof.
  assert (H : forallb (λ a, forallb (λ b,
                implb (lowerish b)
                  (Bool.eqb (Ascii.eqb (Str.lower_char a) b)
                            (same_letter a b))) all_ascii) all_ascii = true)
    by (vm_compute; reflexivity).
  rewrite forallb_forall in H. specialize (H a (in_all_ascii a)).
  rewrite forallb_forall in H. specialize (H b (in_all_ascii b)).
  intros Hb. rewrite Hb in H. simpl in H. now apply Bool.eqb_prop.
Qed.

Lemma lower_cons (a : ascii) (s : string) :
  Str.lower (String a s) = String (Str.lower_char a) (Str.lower s).
Proof. reflexivity. Qed.

Lemma lower_eq_ignore_case (s t : string) :
  forallb lowerish (Str.chars t) = true →
  bool_decide (Str.lower s = t) = eq_ignore_case s t.
Proof.
  revert t. induction s as [|a s IH]; intros [|b t] Ht; try done.
  simpl in Ht. apply andb_prop in Ht as [Hb Ht].
  rewrite lower_cons. simpl.
  rewrite <- (lower_char_same_letter a b Hb), <- (IH t Ht).
  destruct (Ascii.eqb_spec (Str.lower_char a) b) as [->|Hne]; simpl.
  - apply bool_decide_ext. split; [now intros [= ->]|now intros ->].
  - apply bool_decide_eq_false. now intros [= ? ?].
Qed.

Lemma lower_in_tokens (s : string) (tokens : list string) :
  forallb (λ t, forallb lowerish (Str.chars t)) tokens = true →
  bool_decide (Str.lower s ∈ tokens) = existsb (eq_ignore_case s) tokens.
Proof.
  induction tokens as [|t tokens IH]; intros Ht; simpl.
  - reflexivity.
  - simpl in Ht. apply andb_prop in Ht as [Ht1 Ht2].
    rewrite <- (lower_eq_ignore_case s t Ht1), <- (IH Ht2).
    rewrite <- bool_decide_or. apply bool_decide_ext, elem_of_cons.
Qed.

Lemma _cast_boolean_spec (value : pyval) :
  Config._cast_boolean value
  = let! b := spec_cast_boolean (py_str value) in Ok (PBool b).
Proof.
  unfold Config._cast_boolean, spec_cast_boolean, strtobool.
  case_bool_decide as Hempty; [by rewrite Hempty|].
  change ["y"; "yes"; "t"; "true"; "on"; "1"] with true_tokens.
  change ["n"; "no"; "f"; "false"; "off"; "0"] with false_tokens.
  rewrite !lower_in_tokens by reflexivity.
  destruct (existsb _ true_tokens); [done|].
  by destruct (existsb _ false_tokens).
Qed.

End cast_boolean.

(** C4. With [cast=bool], [get] hands the resolved value to the boolean
    cast, which works on the value's string form: the empty string gives
    false, the tokens y/yes/t/true/on/1 in any letter case give true,
    n/no/f/false/off/0 in any letter case give false, and every other
    string raises [ValueError], which [get] lets through unchanged. *)
Theorem C4_boolean_cast (value : pyval) :
  Config._cast_boolean value
  = (let! b := spec_cast_boolean (py_str value) in Ok (PBool b))
  ∧ (∀ (w : World) (self : Config.t) (option : string)
       (default : Datatypes.option pyval),
       Config.get w self option default CastBool
       = let! v := Config.get w self option default CastUndefined in
         let! b := spec_cast_boolean (py_str v) in
         Ok (PBool b))
  ∧ (py_str value ≠ "" →
     existsb (eq_ignore_case (py_str value)) (true_tokens ++ false_tokens)
     = false →
     Config._cast_boolean value = Raise ValueError).
Proof.
  split; [apply _cast_boolean_spec|]. split.
  - intros w self option default. rewrite get_cast_step.
    destruct (Config.get w self option default CastUndefined) as [v|e];
      simpl; [apply _cast_boolean_spec|done].
  - intros Hne Hnone. rewrite _cast_boolean_spec. unfold spec_cast_boolean.
    rewrite existsb_app in Hnone. apply orb_false_elim in Hnone as [-> ->].
    by rewrite bool_decide_eq_false_2.
Qed.

Lemma C4_boolean_cast_witness :
  Config._cast_boolean (PStr "maybe") = Raise ValueError
  ∧ Config._cast_boolean (PStr "YeS") = Ok (PBool true)
  ∧ Config._cast_boolean (PStr "OFF") = Ok (PBool false)
  ∧ Config._cast_boolean (PStr "") = Ok (PBool false).
Proof.
  split; [|by repeat split].
  refine (proj2 (proj2 (C4_boolean_cast (PStr "maybe"))) _ eq_refl).
  discriminate.
Defined.

(** ** RepositoryEnv *)

Section repository_env.

Lemma lstrip_by_incl (p : ascii → bool) (l : list ascii) (c : ascii) :
  In c (Str.lstrip_by p l) → In c l.
Proof.
  induction l as [|x l IH]; simpl; [done|].
  destruct (p x); [right; auto|done].
Qed.

Lemma strip_by_incl (p : ascii → bool) (l : list ascii) (c : ascii) :
  In c (Str.strip_by p l) → In c l.
Proof.
  unfold Str.strip_by, Str.rstrip_by. intros H.
  apply in_rev, lstrip_by_incl, in_rev, lstrip_by_incl in H. exact H.
Qed.

Lemma contains_char_strip (c : ascii) (line : string) :
  Str.contains_char c line = false →
  Str.contains_char c (Str.strip line) = false.
Proof.
  unfold Str.contains_char, Str.mem, Str.strip. intros H.
  apply not_true_is_false. intros H'. apply not_true_iff_false in H.
  apply H. apply existsb_exists in H' as (x & Hx & Hcx).
  rewrite chars_of_chars in Hx. apply strip_by_incl in Hx.
  apply existsb_exists. eauto.
Qed.

Lemma read_line_skip (data : gmap string string) (line : string) :
  Str.contains_char "=" line = false →
  RepositoryEnv.read_line data line = data.
Proof.
  intros H. unfold RepositoryEnv.read_line.
  rewrite (contains_char_strip _ _ H). simpl.
  by rewrite !orb_true_r.
Qed.

End repository_env.

(** C5 (evaluation of the code). The value ["'a'"] in double quotes, whose
    first and last characters are the same quote character, loses both the
    double quotes and the single quotes that belong to the enclosed text:
    the repository holds [a], not ['a']. *)
Theorem C5_quotes_overstripped :
  let dq := String RepositoryEnv.dquote EmptyString in
  let line := "KEY=" +:+ dq +:+ "'a'" +:+ dq +:+ plain_ini.newline in
  let w := initial_world ∅ {[ [".env"] := [line] ]} in
  (let! r := RepositoryEnv.init w [".env"] in RepositoryEnv.getitem r "KEY")
  = Ok (PStr "a")
  ∧ (let! r := RepositoryEnv.init w [".env"] in RepositoryEnv.getitem r "KEY")
    ≠ Ok (PStr "'a'").
Proof. split; [reflexivity|discriminate]. Qed.

(** C10. A line of a .env file that is not blank, is not a comment and has
    no [=] leaves the dictionary as it is, and the constructor returns the
    repository that the file without that line gives; it does not raise. *)
Theorem C10_line_without_equals_skipped (w : World) (source : path)
    (pre post : list string) (line : string) :
  Str.strip line ≠ "" →
  Str.startswith_char "#" (Str.strip line) = false →
  Str.contains_char "=" line = false →
  files w !! source = Some (pre ++ line :: post) →
  (∀ data, RepositoryEnv.read_line data line = data)
  ∧ RepositoryEnv.init w source
    = Ok (RepositoryEnv.mk (fold_left RepositoryEnv.read_line (pre ++ post) ∅)).
Proof.
  intros _ _ Heq Hfile. split; [intros data; by apply read_line_skip|].
  unfold RepositoryEnv.init. rewrite Hfile.
  rewrite !fold_left_app. simpl. by rewrite read_line_skip.
Qed.

Lemma C10_line_without_equals_skipped_witness :
  let nl := plain_ini.newline in
  let w := initial_world ∅
             {[ [".env"] := ["A=1" +:+ nl; "export B" +:+ nl; "C=3" +:+ nl] ]} in
  RepositoryEnv.init w [".env"]
  = Ok (RepositoryEnv.mk
          (fold_left RepositoryEnv.read_line
             (["A=1" +:+ nl] ++ ["C=3" +:+ nl]) ∅)).
Proof.
  refine (proj2 (C10_line_without_equals_skipped
    (initial_world ∅
       {[ [".env"] := ["A=1" +:+ plain_ini.newline;
                       "export B" +:+ plain_ini.newline;
                       "C=3" +:+ plain_ini.newline] ]})
    [".env"] ["A=1" +:+ plain_ini.newline] ["C=3" +:+ plain_ini.newline]
    ("export B" +:+ plain_ini.newline) _ eq_refl eq_refl eq_refl)).
  discriminate.
Defined.

(** ** ConfigParser: values without a percent sign *)

Section interpolation.
Import configparser.

Lemma contains_percent_false (s : string) :
  Str.contains_char "%" s = false → no_percent (Str.chars s).
Proof.
  unfold Str.contains_char, Str.mem, no_percent.
  induction (Str.chars s) as [|c l IH]; cbn [existsb forallb]; [done|].
  intros [Hc Hl]%orb_false_elim. rewrite (IH Hl), andb_true_r.
  unfold not_percent. by rewrite Ascii.eqb_sym, Hc.
Qed.

Lemma take_while_all (p : ascii → bool) (l : list ascii) :
  forallb p l = true → take_while p l = l ∧ drop_while p l = [].
Proof.
  induction l as [|c l IH]; simpl; [done|].
  intros [Hc Hl]%andb_prop. rewrite Hc.
  destruct (IH Hl) as [-> ->]. done.
Qed.

Lemma _KEYCRE_match_no_percent (c : ascii) (l : list ascii) :
  not_percent c = true → _KEYCRE_match (c :: l) = None.
Proof.
  destruct c as [[] [] [] [] [] [] [] []]; try reflexivity; discriminate.
Qed.

Lemma remove_escaped_percent_cons (c : ascii) (l : list ascii) :
  not_percent c = true →
  remove_escaped_percent (c :: l) = c :: remove_escaped_percent l.
Proof.
  destruct c as [[] [] [] [] [] [] [] []]; try reflexivity; discriminate.
Qed.

Lemma remove_escaped_percent_id (l : list ascii) :
  no_percent l → remove_escaped_percent l = l.
Proof.
  unfold no_percent. induction l as [|c l IH]; [done|].
  simpl forallb. intros [Hc Hl]%andb_prop.
  rewrite remove_escaped_percent_cons by done. by rewrite IH.
Qed.

Lemma _KEYCRE_sub_cons (n : nat) (c : ascii) (l : list ascii) :
  _KEYCRE_sub (S n) (c :: l)
  = match _KEYCRE_match (c :: l) with
    | Some (_, rest) => _KEYCRE_sub n rest
    | None => c :: _KEYCRE_sub n l
    end.
Proof. reflexivity. Qed.

Lemma _KEYCRE_sub_id (n : nat) (l : list ascii) :
  no_percent l → length l ≤ n → _KEYCRE_sub n l = l.
Proof.
  unfold no_percent. revert l.
  induction n as [|n IH]; intros [|c l]; simpl forallb; simpl length;
    try done; try lia.
  intros [Hc Hl]%andb_prop Hn. rewrite _KEYCRE_sub_cons.
  rewrite _KEYCRE_match_no_percent by done.
  rewrite IH; [done|done|lia].
Qed.

Lemma before_set_plain (value : string) :
  Str.contains_char "%" value = false → before_set value = Ok value.
Proof.
  intros H. pose proof (contains_percent_false _ H) as Hn.
  unfold before_set.
  rewrite remove_escaped_percent_id by done.
  rewrite _KEYCRE_sub_id by done.
  unfold Str.contains_char, Str.mem in H. by rewrite H.
Qed.

Lemma _interpolate_some_plain (d : gmap string string) (n : nat)
    (l : list ascii) :
  no_percent l → _interpolate_some d (S n) l = Ok l.
Proof.
  intros Hn. destruct (take_while_all _ _ Hn) as [Ht Hd].
  destruct l as [|c l]; [reflexivity|].
  cbn -[take_while drop_while]. by rewrite Hd, Ht.
Qed.

Lemma before_get_plain (d : gmap string string) (value : string) :
  Str.contains_char "%" value = false → before_get d value = Ok value.
Proof.
  intros H. pose proof (contains_percent_false _ H) as Hn.
  unfold before_get, MAX_INTERPOLATION_DEPTH.
  rewrite _interpolate_some_plain by done. simpl.
  by rewrite of_chars_chars.
Qed.

End interpolation.

(** ** ConfigParser: set, get, remove in an existing section *)

Section parser_round_trip.
Import configparser.

Variables (self : ConfigParser) (section : string)
          (sectdict : gmap string string).
Hypothesis Hsect : _sections self !! section = Some sectdict.
Hypothesis Hnamed : section ≠ "".
Hypothesis Hnotdefault : section ≠ default_section.

Lemma not_defaults_section :
  bool_decide (section = "" ∨ section = default_section) = false.
Proof. apply bool_decide_eq_false. by intros [?|?]. Qed.

Lemma set_plain (option value : string) :
  Str.contains_char "%" value = false →
  set self section option value
  = Ok (mkParser (_defaults self)
          (<[section := <[optionxform option := value]> sectdict]>
             (_sections self))).
Proof.
  intros Hv. unfold set.
  assert ((if bool_decide (value = "") then Ok value else before_set value)
          = Ok value) as ->.
  { case_bool_decide; [done|by apply before_set_plain]. }
  simpl. by rewrite not_defaults_section, Hsect.
Qed.

Lemma remove_option_section (option : string) :
  remove_option self section option
  = Ok (mkParser (_defaults self)
          (<[section := delete (optionxform option) sectdict]>
             (_sections self))).
Proof. unfold remove_option. by rewrite not_defaults_section, Hsect. Qed.

Lemma has_option_section (option : string) :
  has_option self section option
  = bool_decide (is_Some (sectdict !! optionxform option))
    || bool_decide (is_Some (_defaults self !! optionxform option)).
Proof. unfold has_option. by rewrite not_defaults_section, Hsect. Qed.

Lemma get_section (option value : string) :
  sectdict !! optionxform option = Some value →
  Str.contains_char "%" value = false →
  get self section option = Ok value.
Proof.
  intros Hopt Hv. unfold get, _unify_values. rewrite Hsect. simpl.
  rewrite (lookup_union_Some_l _ _ _ _ Hopt).
  by apply before_get_plain.
Qed.

End parser_round_trip.

(** ** WritableConfig *)

Lemma init_section_exists `{IniFormat} (w w' : World) (source : path)
    (section : option pyval) (r : WritableRepositoryIni.t) :
  WritableRepositoryIni.init w source section (Some true) = (Ok r, w') →
  WritableRepositoryIni.SECTION r = py_str (default (PStr "default") section)
  ∧ is_Some (configparser._sections (WritableRepositoryIni.parser r)
               !! WritableRepositoryIni.SECTION r).
Proof.
  unfold WritableRepositoryIni.init.
  destruct (RepositoryIni.init _ source) as [[parser]|e]; [|done].
  cbn [default RepositoryIni.parser andb].
  set (S := py_str (default (PStr "default") section)).
  destruct (decide (S ∈ configparser.sections parser)) as [Hin|Hin].
  - rewrite bool_decide_eq_false_2 by (by intros ?).
    intros [= <- _]. simpl. split; [done|].
    unfold configparser.sections in Hin. by apply elem_of_dom in Hin.
  - rewrite bool_decide_eq_true_2 by done.
    unfold configparser.add_section.
    case_bool_decide; [done|]. rewrite bool_decide_eq_false_2 by done.
    intros [= <- _]. simpl. split; [done|]. rewrite lookup_insert_eq. eauto.
Qed.




(** ** The section of the Ini repositories *)




(** ** AutoConfig: the search for a configuration file *)

Section discovery.







End discovery.





(** ** Csv: tokens in single quotes *)

Section quoted_token.
Import shlex.

Variables (pb : list (list ascii)) (ws : string) (wsplit : bool).

Local Abbreviation sq := RepositoryEnv.squote.





Lemma loop_past_eof (fuel : nat) (tok : list ascii) (quoted : bool)
    (esc : ascii) :
  read_token_loop (S fuel) (mk [] None tok pb ws wsplit) quoted esc
  = Ok (mk [] None [] pb ws wsplit, quoted).
Proof. reflexivity. Qed.




End quoted_token.



(** ** Csv: the fuel of the lexer is enough *)

Ltac eval_closed :=
  repeat match goal with
  | |- context [bool_decide (Some ?a = Some ?b)] =>
      let v := eval vm_compute in (bool_decide (Some a = Some b)) in
      lazymatch v with
      | true => change (bool_decide (Some a = Some b)) with true
      | false => change (bool_decide (Some a = Some b)) with false
      end
  | |- context [Str.mem ?a ?s] =>
      let v := eval vm_compute in (Str.mem a s) in
      lazymatch v with
      | true => change (Str.mem a s) with true
      | false => change (Str.mem a s) with false
      end
  end; cbv iota.

Section fuel.
Import shlex.

Lemma length_readline (l : list ascii) : length (readline l) ≤ length l.
Proof.
  induction l as [|c l IH]; simpl; [done|].
  destruct (Ascii.eqb c "010"); lia.
Qed.

Lemma mem_escape (c : ascii) : Str.mem c escape = true → c = "\"%char.
Proof.
  unfold Str.mem, escape. cbn [Str.chars list_ascii_of_string existsb].
  rewrite orb_false_r. apply Ascii.eqb_eq.
Qed.

Lemma mem_quotes (c : ascii) :
  Str.mem c quotes = true → c = RepositoryEnv.squote ∨ c = RepositoryEnv.dquote.
Proof.
  unfold Str.mem, quotes, RepositoryEnv.quotes.
  cbn [Str.chars list_ascii_of_string existsb].
  rewrite orb_false_r. intros [H|H]%orb_prop; apply Ascii.eqb_eq in H; auto.
Qed.

Lemma loop_post_step (self0 self1 : t) (quoted0 quoted1 : bool)
    (res : result (t * bool)) :
  instream self0 ≠ [] →
  length (instream self1) < length (instream self0) →
  pushback self1 = pushback self0 →
  whitespace self1 = whitespace self0 →
  loop_post self1 quoted1 res → loop_post self0 quoted0 res.
Proof.
  intros Hne Hlen Hpb Hws. unfold loop_post.
  destruct res as [[self' quoted']|e]; [|done].
  intros (Hst & Hpb' & Hws' & Hsplit & Hle & _ & _).
  repeat split; try done; try congruence; try lia.
Qed.

Ltac solve_post :=
  solve [ unfold loop_post;
          cbn [instream state token pushback whitespace whitespace_split
               length];
          repeat split; auto; try done; try lia ].

Ltac state_ok :=
  cbn [state lexer_state_ok];
  repeat match goal with
  | H : Str.mem ?c escape = true |- _ => apply mem_escape in H; subst c
  | H : Str.mem ?c quotes = true |- _ =>
      apply mem_quotes in H; destruct H; subst c
  | H : _ && _ = true |- _ => apply andb_prop in H; destruct H
  | H : _ ∨ _ |- _ => destruct H; subst
  end;
  auto 10.

Lemma read_token_loop_post (fuel : nat) :
  ∀ (self : t) (quoted : bool) (esc : ascii),
    lexer_state_ok (state self) esc →
    whitespace_split self = true →
    length (instream self) < fuel →
    loop_post self quoted (read_token_loop fuel self quoted esc).
Proof.
  induction fuel as [|fuel IH]; intros self quoted esc Hok Hsplit Hlen;
    [lia|].
  destruct self as [ins st tok pb ws wsplit]. cbn in Hok, Hsplit, Hlen.
  subst wsplit. destruct st as [c0|].
  2:{ lexer_step. destruct ins; solve_post. }
  destruct ins as [|c ins].
  { destruct Hok as [->|[->|[->|[->|[-> Hesc]]]]];
      lexer_step; eval_closed; solve_post. }
  cbn [length] in Hlen.
  pose proof (length_readline ins) as Hrl.
  destruct Hok as [->|[->|[->|[->|[-> Hesc]]]]];
      lexer_step; eval_closed.
  all: repeat match goal with
       | |- context [if ?b then _ else _] => destruct b eqn:?
       end.
  all: cbn [instream state token pushback whitespace whitespace_split].
  all: try solve_post.
  all: lazymatch goal with
       | |- loop_post ?s0 ?q0 (read_token_loop _ ?s1 ?q1 _) =>
           apply (loop_post_step s0 s1 q0 q1);
           [ discriminate | cbn; lia | reflexivity | reflexivity
           | apply IH; [ state_ok | reflexivity | cbn; lia ] ]
       end.
Qed.

Lemma read_token_post (self : t) :
  entry_ok self →
  match read_token self with
  | Raise e => e = ValueError
  | Ok (tok, self') =>
      entry_ok self'
      ∧ length (instream self') ≤ length (instream self)
      ∧ (is_Some tok → length (instream self') < length (instream self))
  end.
Proof.
  intros (Hst & Htok & Hpb & Hsplit). unfold read_token.
  assert (Hok : lexer_state_ok (state self) " ").
  { destruct Hst as [->| ->]; cbn; auto. }
  pose proof (read_token_loop_post (S (length (instream self))) self false " "
                Hok Hsplit (Nat.lt_succ_diag_r _)) as Hpost.
  destruct (read_token_loop _ self false " ") as [[self1 quoted1]|e];
    [|exact Hpost].
  destruct Hpost as (Hst1 & Hpb1 & _ & Hsplit1 & Hle & Hnil & Hcons).
  cbn [bind].
  assert (Hentry : entry_ok (with_token self1 [])).
  { unfold entry_ok, with_token. cbn. rewrite Hpb1, Hpb. auto. }
  destruct (negb quoted1 && bool_decide (token self1 = [])) eqn:Hcond.
  - repeat split; try apply Hentry; [done|]. by intros [? ?].
  - repeat split; try apply Hentry; [done|]. intros _.
    destruct (instream self) as [|c ins] eqn:Hins; [|by apply Hcons].
    destruct (Hnil eq_refl) as [-> Htok1]. exfalso.
    assert (token self1 = []) as Hempty by (destruct Htok1; congruence).
    rewrite Hempty in Hcond. done.
Qed.

End fuel.

Section csv_fuel.
Context {A B : Type} (self : Csv.t A B).
Hypothesis cast_ok : ∀ s, Csv.cast self s ≠ Raise (UserError "fuel").
Hypothesis post_process_ok :
  ∀ xs, Csv.post_process self xs ≠ Raise (UserError "fuel").

Lemma items_fuel (fuel : nat) :
  ∀ splitter : shlex.t,
    entry_ok splitter →
    length (shlex.instream splitter) < fuel →
    Csv.items self fuel splitter ≠ Raise (UserError "fuel").
Proof.
  induction fuel as [|fuel IH]; intros splitter Hentry Hlen; [lia|].
  cbn [Csv.items]. unfold shlex.get_token.
  destruct Hentry as (Hst & Htok & Hpb & Hsplit) eqn:E. rewrite Hpb.
  pose proof (read_token_post splitter Hentry) as Hpost. clear E.
  destruct (shlex.read_token splitter) as [[tok splitter']|e]; cbn [bind].
  - destruct Hpost as (Hentry' & Hle & Hlt).
    destruct tok as [s|]; [|done].
    unfold Csv.transform.
    destruct (Csv.cast self _) as [x|e] eqn:Hcast; cbn [bind].
    + assert (Hrec : Csv.items self fuel splitter' ≠ Raise (UserError "fuel")).
      { apply IH; [done|]. specialize (Hlt (mk_is_Some _ _ eq_refl)). lia. }
      destruct (Csv.items self fuel splitter'); [done|]. cbn [bind].
      intros [= ->]. done.
    + intros [= ->]. by apply cast_ok in Hcast.
  - subst e. done.
Qed.

Lemma length_chars (s : string) : length (Str.chars s) = String.length s.
Proof. induction s as [|c s IH]; simpl; [done|]. by rewrite <- IH. Qed.

Lemma call_fuel_adequate (value : string) :
  Csv.call self value ≠ Raise (UserError "fuel").
Proof.
  unfold Csv.call.
  match goal with
  | |- context [Csv.items self ?f ?sp] =>
      pose proof (items_fuel f sp) as Hitems
  end.
  destruct (Csv.items self _ _) as [xs|e]; cbn [bind].
  - apply post_process_ok.
  - intros [= ->]. apply Hitems; [| |done].
    + unfold entry_ok, shlex.init. cbn. auto.
    + unfold shlex.init. cbn [shlex.instream]. rewrite length_chars. lia.
Qed.

End csv_fuel.



(* ===================================================================== *)
(** * Further properties *)
(* ===================================================================== *)

(** ** Stripping *)

Section strip.
Variable p : ascii → bool.

Lemma lstrip_by_all (a : list ascii) :
  forallb p a = true → Str.lstrip_by p a = [].
Proof.
  induction a as [|c a IH]; simpl; [done|].
  intros [-> Ha]%andb_prop. auto.
Qed.

Lemma lstrip_by_app_all (a l : list ascii) :
  forallb p a = true → Str.lstrip_by p (a ++ l) = Str.lstrip_by p l.
Proof.
  induction a as [|c a IH]; simpl; [done|].
  intros [-> Ha]%andb_prop. auto.
Qed.

Lemma lstrip_by_clear (l : list ascii) :
  from_option p false (head l) = false → Str.lstrip_by p l = l.
Proof. destruct l as [|c l]; simpl; [done|]. by intros ->. Qed.

Lemma lstrip_by_stop (x y : list ascii) (c : ascii) :
  p c = false →
  Str.lstrip_by p (x ++ c :: y) = Str.lstrip_by p x ++ c :: y.
Proof.
  intros Hc. induction x as [|d x IH]; simpl; [by rewrite Hc|].
  by destruct (p d).
Qed.

Lemma rstrip_by_app_all (l b : list ascii) :
  forallb p b = true → Str.rstrip_by p (l ++ b) = Str.rstrip_by p l.
Proof.
  intros Hb. unfold Str.rstrip_by. rewrite rev_app_distr.
  rewrite lstrip_by_app_all; [done|].
  rewrite forallb_forall in *. intros c Hc. apply Hb. by apply in_rev.
Qed.

Lemma rstrip_by_clear (l : list ascii) :
  from_option p false (head (rev l)) = false → Str.rstrip_by p l = l.
Proof.
  intros H. unfold Str.rstrip_by. rewrite lstrip_by_clear by done.
  apply rev_involutive.
Qed.

Lemma rstrip_by_stop (x y : list ascii) (c : ascii) :
  p c = false →
  Str.rstrip_by p (x ++ c :: y) = x ++ c :: Str.rstrip_by p y.
Proof.
  intros Hc. unfold Str.rstrip_by.
  rewrite rev_app_distr. simpl. rewrite <- app_assoc. simpl.
  rewrite lstrip_by_stop by done.
  rewrite rev_app_distr. simpl. rewrite rev_involutive.
  by rewrite <- app_assoc.
Qed.

Lemma ends_clear_head (l : list ascii) :
  ends_clear p l = true → from_option p false (head l) = false.
Proof. unfold ends_clear. intros [H _]%andb_prop. by destruct (from_option _ _ _). Qed.

Lemma ends_clear_last (l : list ascii) :
  ends_clear p l = true → from_option p false (head (rev l)) = false.
Proof. unfold ends_clear. intros [_ H]%andb_prop. by destruct (from_option _ _ _). Qed.

(** White space around a text with clear ends is what a strip removes. *)
Lemma strip_by_padded (a l b : list ascii) :
  forallb p a = true → forallb p b = true → ends_clear p l = true →
  Str.strip_by p (a ++ l ++ b) = l.
Proof.
  intros Ha Hb Hl. unfold Str.strip_by.
  rewrite lstrip_by_app_all by done.
  destruct l as [|c l].
  - simpl. by rewrite lstrip_by_all.
  - rewrite lstrip_by_clear.
    + rewrite rstrip_by_app_all by done.
      by apply rstrip_by_clear, ends_clear_last.
    + simpl. apply (ends_clear_head _ Hl).
Qed.

End strip.

(** ** RepositoryEnv: what a line defines *)

Section env_lines.
Import RepositoryEnv.

Lemma mem_chars (c : ascii) (s : string) :
  Str.mem c s = false → ∀ x, In x (Str.chars s) → x ≠ c.
Proof.
  unfold Str.mem. intros H x Hx ->. apply not_true_iff_false in H.
  apply H, existsb_exists. exists c. split; [done|]. apply Ascii.eqb_refl.
Qed.

Lemma blank_chars (c : ascii) (s : string) :
  Str.isspace c = false → blank s = true → ∀ x, In x (Str.chars s) → x ≠ c.
Proof.
  unfold blank. intros Hc Hs x Hx ->.
  rewrite forallb_forall in Hs. specialize (Hs c Hx). congruence.
Qed.

Lemma split_first_at (c : ascii) (x y : list ascii) :
  (∀ d, In d x → d ≠ c) →
  Str.split_first c (x ++ c :: y) = Some (x, y).
Proof.
  induction x as [|d x IH]; intros Hx; simpl.
  - by rewrite Ascii.eqb_refl.
  - assert (Ascii.eqb d c = false) as ->.
    { apply Ascii.eqb_neq, Hx. by left. }
    rewrite IH; [done|]. intros e He. apply Hx. by right.
Qed.

Lemma head_rev_app (x y : list ascii) :
  y ≠ [] → head (rev (x ++ y)) = head (rev y).
Proof.
  intros Hy. rewrite rev_app_distr.
  destruct (rev y) as [|c r] eqn:E; [|done].
  apply (f_equal (@rev _)) in E. rewrite rev_involutive in E. done.
Qed.

(** The part of a stripped line before the [=]: stripped again, it is the
    key. *)
Lemma key_part (a k b : list ascii) :
  forallb Str.isspace a = true → forallb Str.isspace b = true →
  ends_clear Str.isspace k = true →
  Str.strip_by Str.isspace (Str.lstrip_by Str.isspace (a ++ k ++ b)) = k
  ∧ head (Str.lstrip_by Str.isspace (a ++ k ++ b)) = head k.
Proof.
  intros Ha Hb Hk. rewrite lstrip_by_app_all by done.
  destruct k as [|c k].
  - simpl. by rewrite lstrip_by_all.
  - rewrite lstrip_by_clear by (simpl; apply (ends_clear_head _ _ Hk)).
    split; [|done].
    by apply (strip_by_padded Str.isspace [] (c :: k) b).
Qed.

(** The part after the [=]: stripped again, it is the value. *)
Lemma value_part (a v b : list ascii) :
  forallb Str.isspace a = true → forallb Str.isspace b = true →
  ends_clear Str.isspace v = true →
  Str.strip_by Str.isspace (Str.rstrip_by Str.isspace (a ++ v ++ b)) = v.
Proof.
  intros Ha Hb Hv. rewrite app_assoc, rstrip_by_app_all by done.
  destruct v as [|c v].
  - rewrite app_nil_r.
    replace (Str.rstrip_by Str.isspace a) with (@nil ascii); [done|].
    unfold Str.rstrip_by. rewrite lstrip_by_all; [done|].
    rewrite forallb_forall in *. intros x Hx. apply Ha. by apply in_rev.
  - rewrite rstrip_by_clear.
    + rewrite <- (app_nil_r (a ++ c :: v)), <- app_assoc.
      by apply strip_by_padded.
    + rewrite head_rev_app by done. apply (ends_clear_last _ _ Hv).
Qed.

Lemma strip_assignment (ws1 k ws2 ws3 v ws4 : string) :
  blank ws1 = true → blank ws2 = true → blank ws3 = true →
  blank ws4 = true →
  Str.strip (ws1 +:+ k +:+ ws2 +:+ "=" +:+ ws3 +:+ v +:+ ws4)
  = Str.of_chars
      (Str.lstrip_by Str.isspace (Str.chars ws1 ++ Str.chars k ++ Str.chars ws2)
       ++ "="%char
       :: Str.rstrip_by Str.isspace
            (Str.chars ws3 ++ Str.chars v ++ Str.chars ws4)).
Proof.
  intros H1 H2 H3 H4. unfold Str.strip. f_equal.
  rewrite !chars_app.
  change (Str.chars "=") with ["="%char].
  replace (Str.chars ws1 ++ Str.chars k ++ Str.chars ws2 ++ ["="%char]
           ++ Str.chars ws3 ++ Str.chars v ++ Str.chars ws4)
    with ((Str.chars ws1 ++ Str.chars k ++ Str.chars ws2) ++ "="%char
          :: (Str.chars ws3 ++ Str.chars v ++ Str.chars ws4))
    by (by rewrite <- !app_assoc).
  unfold Str.strip_by.
  rewrite lstrip_by_stop by done. by rewrite rstrip_by_stop by done.
Qed.

End env_lines.

Section env_assign.
Import RepositoryEnv.

Variables (ws1 k ws2 ws3 v ws4 : string).
Hypothesis Hws1 : blank ws1 = true.
Hypothesis Hws2 : blank ws2 = true.
Hypothesis Hws3 : blank ws3 = true.
Hypothesis Hws4 : blank ws4 = true.
Hypothesis Hk : trimmed k = true.
Hypothesis Hv : trimmed v = true.
Hypothesis Hkeq : Str.contains_char "=" k = false.
Hypothesis Hkhash : Str.startswith_char "#" k = false.

(** The key and the raw value that the loop body finds on the line. *)
Lemma read_line_parts (data : gmap string string) :
  read_line data (ws1 +:+ k +:+ ws2 +:+ "=" +:+ ws3 +:+ v +:+ ws4)
  = <[k := if quote_wrapped v then Str.strip_chars quotes v else v]> data.
Proof.
  unfold read_line. rewrite strip_assignment by done.
  set (K := Str.lstrip_by Str.isspace
              (Str.chars ws1 ++ Str.chars k ++ Str.chars ws2)).
  set (V := Str.rstrip_by Str.isspace
              (Str.chars ws3 ++ Str.chars v ++ Str.chars ws4)).
  destruct (key_part (Str.chars ws1) (Str.chars k) (Str.chars ws2)
              Hws1 Hws2 Hk) as [HK Hhead]. fold K in HK, Hhead.
  pose proof (value_part (Str.chars ws3) (Str.chars v) (Str.chars ws4)
                Hws3 Hws4 Hv) as HV. fold V in HV.
  assert (HKeq : ∀ d, In d K → d ≠ "="%char).
  { intros d Hd. apply lstrip_by_incl in Hd.
    apply in_app_or in Hd as [Hd|Hd]; [by apply (blank_chars _ ws1)|].
    apply in_app_or in Hd as [Hd|Hd]; [|by apply (blank_chars _ ws2)].
    by apply (mem_chars _ k). }
  assert (Hnotblank : bool_decide (Str.of_chars (K ++ "="%char :: V) = "")
                      = false).
  { apply bool_decide_eq_false. intros E.
    apply (f_equal Str.chars) in E. rewrite chars_of_chars in E.
    by destruct K. }
  assert (Hnothash : Str.startswith_char "#"
                       (Str.of_chars (K ++ "="%char :: V)) = false).
  { destruct K as [|c K'] eqn:EK; [done|]. simpl in Hhead.
    destruct k as [|c' k']; [done|]. simpl in Hhead.
    injection Hhead as <-. exact Hkhash. }
  assert (Hhaseq : Str.contains_char "="
                     (Str.of_chars (K ++ "="%char :: V)) = true).
  { unfold Str.contains_char, Str.mem. rewrite chars_of_chars.
    apply existsb_exists. exists "="%char. split; [|done].
    apply in_or_app. right. by left. }
  rewrite Hnotblank, Hnothash, Hhaseq. cbn [orb negb].
  rewrite chars_of_chars, split_first_at by done.
  unfold Str.strip. rewrite !chars_of_chars, HK, HV, !of_chars_chars.
  reflexivity.
Qed.

End env_assign.

(** X1. A line [KEY = value], with any white space before the key, around
    the [=] and after the value, binds the key to the value when the value
    is not wrapped in a pair of matching quotes: the white space outside is
    dropped, the text of key and value is kept as written. *)
Theorem read_line_assign (data : gmap string string)
    (ws1 k ws2 ws3 v ws4 : string) :
  blank ws1 = true → blank ws2 = true → blank ws3 = true →
  blank ws4 = true → trimmed k = true → trimmed v = true →
  Str.contains_char "=" k = false →
  Str.startswith_char "#" k = false →
  quote_wrapped v = false →
  RepositoryEnv.read_line data
    (ws1 +:+ k +:+ ws2 +:+ "=" +:+ ws3 +:+ v +:+ ws4)
  = <[k := v]> data.
Proof.
  intros H1 H2 H3 H4 Hk Hv Hkeq Hkhash Hq.
  rewrite read_line_parts by done. by rewrite Hq.
Qed.

Lemma read_line_assign_witness :
  RepositoryEnv.read_line ∅
    ("  " +:+ "DB URL" +:+ " " +:+ "=" +:+ " " +:+ "sqlite:///db = x"
     +:+ plain_ini.newline)
  = {[ "DB URL" := "sqlite:///db = x" ]}.
Proof.
  exact (read_line_assign ∅ "  " "DB URL" " " " " "sqlite:///db = x"
           plain_ini.newline eq_refl eq_refl eq_refl eq_refl eq_refl eq_refl
           eq_refl eq_refl eq_refl).
Defined.

Lemma chars_wrapped (q : ascii) (inner : string) :
  Str.chars (String q (inner +:+ String q EmptyString))
  = [q] ++ Str.chars inner ++ [q].
Proof.
  change (Str.chars (String q (inner +:+ String q EmptyString)))
    with (q :: Str.chars (inner +:+ String q EmptyString)).
  by rewrite chars_app.
Qed.

Lemma wrapped_facts (q : ascii) (inner : string) :
  let v := String q (inner +:+ String q EmptyString) in
  Str.first v = Some q ∧ Str.last v = Some q ∧ 2 ≤ Str.len v.
Proof.
  intros v. unfold Str.first, Str.last, Str.len, v.
  rewrite <- length_chars, chars_wrapped. repeat split.
  - change ([q] ++ Str.chars inner ++ [q])
      with ((q :: Str.chars inner) ++ [q]).
    rewrite map_app. simpl map at 2. apply last_last.
  - rewrite !length_app. simpl. lia.
Qed.

(** X2. A value wrapped in one pair of single or double quotes, whose
    enclosed text neither begins nor ends with a quote character, is
    stored as the enclosed text: the pair is removed and nothing else,
    white space inside the quotes included. *)
Theorem read_line_quoted (data : gmap string string)
    (ws1 k ws2 ws3 inner ws4 : string) (q : ascii) :
  blank ws1 = true → blank ws2 = true → blank ws3 = true →
  blank ws4 = true → trimmed k = true →
  Str.contains_char "=" k = false →
  Str.startswith_char "#" k = false →
  q = RepositoryEnv.squote ∨ q = RepositoryEnv.dquote →
  ends_clear is_quote (Str.chars inner) = true →
  RepositoryEnv.read_line data
    (ws1 +:+ k +:+ ws2 +:+ "=" +:+ ws3
     +:+ String q (inner +:+ String q EmptyString) +:+ ws4)
  = <[k := inner]> data.
Proof.
  intros H1 H2 H3 H4 Hk Hkeq Hkhash Hq Hinner.
  set (v := String q (inner +:+ String q EmptyString)).
  destruct (wrapped_facts q inner) as (Hfirst & Hlast & Hlen). fold v in Hfirst, Hlast, Hlen.
  assert (Hqspace : Str.isspace q = false) by (by destruct Hq as [->| ->]).
  assert (Hqquote : is_quote q = true) by (by destruct Hq as [->| ->]).
  assert (Hv : trimmed v = true).
  { unfold trimmed, ends_clear, v. rewrite chars_wrapped.
    change ([q] ++ Str.chars inner ++ [q])
      with ((q :: Str.chars inner) ++ [q]) at 2.
    rewrite rev_app_distr. simpl. by rewrite Hqspace. }
  rewrite read_line_parts by done.
  assert (Hwrapped : quote_wrapped v = true).
  { unfold quote_wrapped. rewrite Hfirst, Hlast.
    apply Nat.leb_le in Hlen. rewrite Hlen.
    destruct Hq as [->| ->]; reflexivity. }
  rewrite Hwrapped. f_equal.
  unfold Str.strip_chars, v. rewrite chars_wrapped.
  rewrite (strip_by_padded (λ c, Str.mem c RepositoryEnv.quotes)).
  - apply of_chars_chars.
  - simpl. by rewrite andb_true_r.
  - simpl. by rewrite andb_true_r.
  - exact Hinner.
Qed.

Lemma read_line_quoted_witness :
  RepositoryEnv.read_line ∅
    ("" +:+ "GREETING" +:+ "" +:+ "=" +:+ ""
     +:+ String "'" (" it's here " +:+ String "'" EmptyString)
     +:+ plain_ini.newline)
  = {[ "GREETING" := " it's here " ]}.
Proof.
  exact (read_line_quoted ∅ "" "GREETING" "" "" " it's here "
           plain_ini.newline "'" eq_refl eq_refl eq_refl eq_refl eq_refl
           eq_refl eq_refl (or_introl eq_refl) eq_refl).
Defined.

Lemma strip_blank (line : string) : blank line = true → Str.strip line = "".
Proof.
  unfold blank, Str.strip, Str.strip_by. intros H.
  by rewrite lstrip_by_all.
Qed.

(** X3. A line of white space only, and a line whose first character
    after the leading white space is [#], leave the dictionary as it is,
    also when the line contains an assignment. *)
Theorem read_line_blank_or_comment (data : gmap string string)
    (line : string) :
  blank line = true ∨ Str.startswith_char "#" (Str.strip line) = true →
  RepositoryEnv.read_line data line = data.
Proof.
  intros [H|H]; unfold RepositoryEnv.read_line.
  - by rewrite (strip_blank _ H).
  - rewrite H. by rewrite orb_true_r.
Qed.

Lemma read_line_blank_or_comment_witness :
  RepositoryEnv.read_line {[ "A" := "1" ]} ("   # A=2" +:+ plain_ini.newline)
  = {[ "A" := "1" ]}.
Proof.
  exact (read_line_blank_or_comment {[ "A" := "1" ]}
           ("   # A=2" +:+ plain_ini.newline) (or_intror eq_refl)).
Defined.

(** X4. When several lines of a .env file assign the same key, the
    repository holds the value of the last one: whatever the lines before
    it, a final line [KEY=value] makes [repository[KEY]] that value. *)
Theorem env_last_assignment_wins (w : World) (source : path)
    (lines : list string) (ws1 k ws2 ws3 v ws4 : string) :
  blank ws1 = true → blank ws2 = true → blank ws3 = true →
  blank ws4 = true → trimmed k = true → trimmed v = true →
  Str.contains_char "=" k = false →
  Str.startswith_char "#" k = false →
  quote_wrapped v = false →
  files w !! source
  = Some (lines ++ [ws1 +:+ k +:+ ws2 +:+ "=" +:+ ws3 +:+ v +:+ ws4]) →
  (let! r := RepositoryEnv.init w source in RepositoryEnv.getitem r k)
  = Ok (PStr v).
Proof.
  intros H1 H2 H3 H4 Hk Hv Hkeq Hkhash Hq Hfile.
  unfold RepositoryEnv.init. rewrite Hfile. cbn [bind].
  rewrite fold_left_app. cbn [fold_left].
  rewrite read_line_parts by done. rewrite Hq.
  unfold RepositoryEnv.getitem. cbn [RepositoryEnv.data].
  by rewrite lookup_insert_eq.
Qed.

Lemma env_last_assignment_wins_witness :
  let nl := plain_ini.newline in
  let w := initial_world ∅
             {[ [".env"] := ["A=1" +:+ nl; "B=2" +:+ nl]
                            ++ ["" +:+ "A" +:+ "" +:+ "=" +:+ "" +:+ "3"
                                +:+ nl] ]} in
  (let! r := RepositoryEnv.init w [".env"] in RepositoryEnv.getitem r "A")
  = Ok (PStr "3").
Proof.
  exact (env_last_assignment_wins
    (initial_world ∅
       {[ [".env"] := ["A=1" +:+ plain_ini.newline; "B=2" +:+ plain_ini.newline]
                      ++ ["" +:+ "A" +:+ "" +:+ "=" +:+ "" +:+ "3"
                          +:+ plain_ini.newline] ]})
    [".env"] ["A=1" +:+ plain_ini.newline; "B=2" +:+ plain_ini.newline]
    "" "A" "" "" "3" plain_ini.newline
    eq_refl eq_refl eq_refl eq_refl eq_refl eq_refl eq_refl eq_refl eq_refl
    eq_refl).
Defined.

(** ** Config.get: the repository between environment and default *)


(** X5. When the option is not in the process environment and the
    repository defines it, [Config.get] casts the repository's value and
    the default plays no part; for a .env repository that value is the
    string the file binds to the option. *)
Theorem get_repository_over_default (w : World) (self : Config.t)
    (option : string) (default : Datatypes.option pyval) (cast : cast_arg) :
  environ w !! option = None →
  defines w (Config.repository self) option = true →
  Config.get w self option default cast
  = (let! value := getitem w (Config.repository self) option in
     cast_step cast value)
  ∧ ∀ (r : RepositoryEnv.t) (v : string),
      Config.repository self = Env r →
      RepositoryEnv.data r !! option = Some v →
      Config.get w self option default cast = cast_step cast (PStr v).
Proof.
  intros Henv Hdef.
  assert (Hget : Config.get w self option default cast
                 = let! value := getitem w (Config.repository self) option in
                   cast_step cast value).
  { unfold Config.get. rewrite Henv, (contains_defines _ _ _ Henv), Hdef.
    destruct (getitem w _ option); [by destruct cast|done]. }
  split; [done|]. intros r v Hr Hv. rewrite Hget, Hr. simpl.
  unfold RepositoryEnv.getitem. by rewrite Hv.
Qed.

Lemma get_repository_over_default_witness :
  let w := initial_world {["HOME" := "/root"]} ∅ in
  let self := Config.mk (Env (RepositoryEnv.mk {["DEBUG" := "no"]})) in
  Config.get w self "DEBUG" (Some (PBool true)) CastBool = Ok (PBool false).
Proof.
  exact (proj2 (get_repository_over_default
    (initial_world {["HOME" := "/root"]} ∅)
    (Config.mk (Env (RepositoryEnv.mk {["DEBUG" := "no"]})))
    "DEBUG" (Some (PBool true)) CastBool eq_refl eq_refl)
    (RepositoryEnv.mk {["DEBUG" := "no"]}) "no" eq_refl eq_refl).
Defined.

(** X6. For a key that only the process environment holds, a .env
    repository answers the membership test with true and raises [KeyError]
    on the item read; [Config.get] never reaches that read, and over a
    .env repository, with the cast left out, it returns a value or raises
    [UndefinedValueError], nothing else. *)
Theorem env_repository_membership_and_read (w : World) (r : RepositoryEnv.t)
    (key : string) :
  (∀ e, environ w !! key = Some e → RepositoryEnv.data r !! key = None →
     RepositoryEnv.contains w r key = true
     ∧ RepositoryEnv.getitem r key = Raise (KeyError key)
     ∧ ∀ default, Config.get w (Config.mk (Env r)) key default CastUndefined
                  = Ok (PStr e))
  ∧ ∀ default,
      (∃ v, Config.get w (Config.mk (Env r)) key default CastUndefined
            = Ok v)
      ∨ Config.get w (Config.mk (Env r)) key default CastUndefined
        = Raise (UndefinedValueError (Config.not_found_message key)).
Proof.
  split.
  - intros e Henv Hdata. unfold RepositoryEnv.contains, RepositoryEnv.getitem.
    rewrite Henv, Hdata. split; [by rewrite bool_decide_eq_true_2|].
    split; [done|]. intros default. unfold Config.get. by rewrite Henv.
  - intros default. unfold Config.get.
    destruct (environ w !! key) as [e|] eqn:Henv; [left; by eexists|].
    simpl. unfold RepositoryEnv.contains, RepositoryEnv.getitem.
    rewrite Henv. simpl.
    destruct (RepositoryEnv.data r !! key) as [v|] eqn:Hdata.
    + rewrite bool_decide_eq_true_2 by eauto. left. by eexists.
    + rewrite bool_decide_eq_false_2 by (by intros [? ?]).
      destruct default; [left; by eexists|by right].
Qed.

Lemma env_repository_membership_and_read_witness :
  let w := initial_world {["HOME" := "/root"]} ∅ in
  let r := RepositoryEnv.mk {["DEBUG" := "no"]} in
  RepositoryEnv.contains w r "HOME" = true
  ∧ RepositoryEnv.getitem r "HOME" = Raise (KeyError "HOME")
  ∧ ∀ default, Config.get w (Config.mk (Env r)) "HOME" default CastUndefined
               = Ok (PStr "/root").
Proof.
  exact (proj1 (env_repository_membership_and_read
    (initial_world {["HOME" := "/root"]} ∅)
    (RepositoryEnv.mk {["DEBUG" := "no"]}) "HOME") "/root" eq_refl eq_refl).
Defined.

(** ** The boolean cast on values that are not strings *)

Lemma get_default_step (w : World) (self : Config.t) (option : string)
    (default : pyval) (cast : cast_arg) :
  environ w !! option = None →
  defines w (Config.repository self) option = false →
  Config.get w self option (Some default) cast = cast_step cast default.
Proof.
  intros Henv Hdef. unfold Config.get.
  rewrite Henv, (contains_defines _ _ _ Henv), Hdef. by destruct cast.
Qed.

(** X7. With [cast=bool], a default that is already a boolean comes back
    unchanged, and the default [None] raises [ValueError]: its string form
    [None] is not a truth token. *)
Theorem boolean_cast_of_boolean_and_none (w : World) (self : Config.t)
    (option : string) :
  environ w !! option = None →
  defines w (Config.repository self) option = false →
  (∀ b : bool,
     Config.get w self option (Some (PBool b)) CastBool = Ok (PBool b))
  ∧ Config.get w self option (Some PNone) CastBool = Raise ValueError.
Proof.
  intros Henv Hdef.
  split; [intros b|]; rewrite get_default_step by done; [by destruct b|done].
Qed.

Lemma boolean_cast_of_boolean_and_none_witness :
  let w := initial_world ∅ ∅ in
  Config.get w (Config.mk Empty) "DEBUG" (Some (PBool false)) CastBool
  = Ok (PBool false)
  ∧ Config.get w (Config.mk Empty) "DEBUG" (Some PNone) CastBool
    = Raise ValueError.
Proof.
  pose proof (boolean_cast_of_boolean_and_none (initial_world ∅ ∅)
                (Config.mk Empty) "DEBUG" eq_refl eq_refl) as [H1 H2].
  split; [exact (H1 false)|exact H2].
Defined.

(** ** The Ini repository under Config.get *)

(** X8. When the option is not in the process environment and the ini
    file's section defines it, in any letter case, with a value free of
    percent signs, [Config.get] returns the cast of that value and the
    default plays no part. *)
Theorem get_ini_value (w : World) (r : RepositoryIni.t) (option v : string)
    (sectdict : gmap string string) (default : Datatypes.option pyval)
    (cast : cast_arg) :
  environ w !! option = None →
  RepositoryIni_SECTION w ≠ "" →
  RepositoryIni_SECTION w ≠ "DEFAULT" →
  configparser._sections (RepositoryIni.parser r) !! RepositoryIni_SECTION w
  = Some sectdict →
  sectdict !! Str.lower option = Some v →
  Str.contains_char "%" v = false →
  Config.get w (Config.mk (Ini r)) option default cast
  = cast_step cast (PStr v).
Proof.
  intros Henv Hnamed Hnotdefault Hsect Hopt Hv.
  unfold Config.get. rewrite Henv. cbn [Config.repository contains getitem].
  unfold RepositoryIni.contains, RepositoryIni.getitem, RepositoryIni.SECTION.
  rewrite Henv.
  rewrite (has_option_section _ _ _ Hsect Hnamed Hnotdefault).
  unfold configparser.optionxform. rewrite Hopt.
  rewrite (get_section _ _ _ Hsect option v Hopt Hv).
  rewrite (bool_decide_eq_true_2 (is_Some (Some v))) by eauto.
  by destruct cast.
Qed.

Lemma get_ini_value_witness :
  let parser :=
    configparser.mkParser ∅ {[ "settings" := {[ "debug" := "on" ]} ]} in
  Config.get (initial_world ∅ ∅) (Config.mk (Ini (RepositoryIni.mk parser)))
    "DEBUG" (Some (PBool false)) CastBool
  = Ok (PBool true).
Proof.
  refine (get_ini_value (initial_world ∅ ∅)
    (RepositoryIni.mk
       (configparser.mkParser ∅ {[ "settings" := {[ "debug" := "on" ]} ]}))
    "DEBUG" "on" {[ "debug" := "on" ]} (Some (PBool false)) CastBool
    eq_refl _ _ eq_refl eq_refl eq_refl); discriminate.
Defined.

(** ** WritableConfig: keys, other keys, deletion *)

Section writable.
Context `{IniFormat}.
Import configparser.

Variables (parser : ConfigParser) (section : string) (source : path)
          (sectdict : gmap string string).
Hypothesis Hsect : _sections parser !! section = Some sectdict.
Hypothesis Hnamed : section ≠ "".
Hypothesis Hnotdefault : section ≠ "DEFAULT".

Let self : WritableConfig.t :=
  WritableConfig.mk (WritableRepositoryIni.mk parser section source).

(** The configuration after [self[key] = value] and after [del self[key]]. *)
Let after_set (key value : string) : WritableConfig.t :=
  WritableConfig.mk
    (WritableRepositoryIni.mk
       (mkParser (_defaults parser)
          (<[section := <[optionxform key := value]> sectdict]>
             (_sections parser)))
       section source).

Let after_del (key : string) : WritableConfig.t :=
  WritableConfig.mk
    (WritableRepositoryIni.mk
       (mkParser (_defaults parser)
          (<[section := delete (optionxform key) sectdict]>
             (_sections parser)))
       section source).

Lemma setitem_result (w : World) (key : string) (value : pyval) :
  Str.contains_char "%" (py_str value) = false →
  (WritableConfig.setitem w self key value).1
  = Ok (after_set key (py_str value)).
Proof.
  intros Hv. unfold WritableConfig.setitem, WritableRepositoryIni.setitem.
  cbn [WritableConfig.repository WritableRepositoryIni.parser
       WritableRepositoryIni.SECTION WritableRepositoryIni.source self].
  by rewrite (set_plain _ _ _ Hsect Hnamed Hnotdefault _ _ Hv).
Qed.

Lemma delitem_result (w : World) (key : string) :
  (WritableConfig.delitem w self key).1 = Ok (after_del key).
Proof.
  unfold WritableConfig.delitem, WritableRepositoryIni.delitem.
  cbn [WritableConfig.repository WritableRepositoryIni.parser
       WritableRepositoryIni.SECTION WritableRepositoryIni.source self].
  by rewrite (remove_option_section _ _ _ Hsect Hnamed Hnotdefault).
Qed.

Lemma contains_after_set (w : World) (key value key' : string) :
  WritableConfig.contains_ w (after_set key value) key'
  = bool_decide (is_Some (<[optionxform key := value]> sectdict
                            !! optionxform key'))
    || bool_decide (is_Some (_defaults parser !! optionxform key')).
Proof.
  unfold WritableConfig.contains_, contains, WritableRepositoryIni.contains.
  cbn [WritableConfig.repository WritableRepositoryIni.parser
       WritableRepositoryIni.SECTION after_set].
  by rewrite (has_option_section _ section
                (<[optionxform key := value]> sectdict)
                (lookup_insert_eq _ _ _) Hnamed Hnotdefault).
Qed.

Lemma contains_before (w : World) (key' : string) :
  WritableConfig.contains_ w self key'
  = bool_decide (is_Some (sectdict !! optionxform key'))
    || bool_decide (is_Some (_defaults parser !! optionxform key')).
Proof.
  unfold WritableConfig.contains_, contains, WritableRepositoryIni.contains.
  cbn [WritableConfig.repository WritableRepositoryIni.parser
       WritableRepositoryIni.SECTION self].
  by rewrite (has_option_section _ _ _ Hsect Hnamed Hnotdefault).
Qed.

Lemma contains_after_del (w : World) (key key' : string) :
  WritableConfig.contains_ w (after_del key) key'
  = bool_decide (is_Some (delete (optionxform key) sectdict
                            !! optionxform key'))
    || bool_decide (is_Some (_defaults parser !! optionxform key')).
Proof.
  unfold WritableConfig.contains_, contains, WritableRepositoryIni.contains.
  cbn [WritableConfig.repository WritableRepositoryIni.parser
       WritableRepositoryIni.SECTION after_del].
  by rewrite (has_option_section _ section
                (delete (optionxform key) sectdict)
                (lookup_insert_eq _ _ _) Hnamed Hnotdefault).
Qed.

(** Keys are compared in lower case. *)
Lemma keys_ignore_case_at (w w' : World) (key key' : string)
    (value : pyval) (default : option pyval) (cast : cast_arg) :
  Str.contains_char "%" (py_str value) = false →
  Str.lower key' = Str.lower key →
  ∃ self1,
    (WritableConfig.setitem w self key value).1 = Ok self1
    ∧ WritableConfig.contains_ w' self1 key' = true
    ∧ WritableConfig.get w' self1 key' default cast
      = cast_step cast (PStr (py_str value)).
Proof.
  intros Hv Hcase. exists (after_set key (py_str value)).
  split; [by apply setitem_result|].
  assert (Hin : WritableConfig.contains_ w' (after_set key (py_str value)) key'
                = true).
  { rewrite contains_after_set. unfold optionxform. rewrite Hcase.
    rewrite lookup_insert_eq. by rewrite bool_decide_eq_true_2 by eauto. }
  split; [done|].
  unfold WritableConfig.get. fold (WritableConfig.contains_ w'
    (after_set key (py_str value)) key'). rewrite Hin.
  cbn [getitem WritableConfig.repository after_set].
  unfold WritableRepositoryIni.getitem.
  cbn [WritableRepositoryIni.parser WritableRepositoryIni.SECTION].
  rewrite (get_section _ section (<[optionxform key := py_str value]> sectdict)
             (lookup_insert_eq _ _ _) key' (py_str value)); [| |done].
  - by destruct cast.
  - unfold optionxform. rewrite Hcase. apply lookup_insert_eq.
Qed.

(** Setting or deleting a key leaves the membership of the keys with
    another lower-case form as it was. *)
Lemma other_keys_at (w w' : World) (key key' : string) (value : pyval) :
  Str.lower key' ≠ Str.lower key →
  (Str.contains_char "%" (py_str value) = false →
   ∃ self1,
     (WritableConfig.setitem w self key value).1 = Ok self1
     ∧ WritableConfig.contains_ w' self1 key'
       = WritableConfig.contains_ w' self key')
  ∧ ∃ self2,
      (WritableConfig.delitem w self key).1 = Ok self2
      ∧ WritableConfig.contains_ w' self2 key'
        = WritableConfig.contains_ w' self key'.
Proof.
  intros Hne. split.
  - intros Hv. exists (after_set key (py_str value)).
    split; [by apply setitem_result|].
    rewrite contains_after_set, contains_before.
    unfold optionxform. by rewrite lookup_insert_ne by done.
  - exists (after_del key). split; [apply delitem_result|].
    rewrite contains_after_del, contains_before.
    unfold optionxform. by rewrite lookup_delete_ne by done.
Qed.

(** Deleting a key that the section does not hold is no error and changes
    nothing in the configuration. *)
Lemma delete_absent_at (w : World) (key : string) :
  sectdict !! Str.lower key = None →
  (WritableConfig.delitem w self key).1 = Ok self.
Proof.
  intros Habsent. rewrite delitem_result. unfold after_del, self.
  unfold optionxform. rewrite delete_id by done.
  rewrite insert_id by done.
  assert (Heta : ∀ p, mkParser (_defaults p) (_sections p) = p)
    by (by intros []).
  by rewrite Heta.
Qed.

End writable.

(** X9. Keys of a writable configuration are compared in lower case: after
    [config[key] = value], with a value free of percent signs and an
    existing named section, every key with the same lower-case form is a
    member and [get] returns the cast of the value's string form for it,
    whatever default is passed. *)
Theorem writable_keys_ignore_case `{IniFormat} (w w' : World)
    (self : WritableConfig.t) (key key' : string) (value : pyval)
    (default : option pyval) (cast : cast_arg) :
  let repository := WritableConfig.repository self in
  let section := WritableRepositoryIni.SECTION repository in
  is_Some (configparser._sections (WritableRepositoryIni.parser repository)
             !! section) →
  section ≠ "" →
  section ≠ "DEFAULT" →
  Str.contains_char "%" (py_str value) = false →
  Str.lower key' = Str.lower key →
  ∃ self1,
    (WritableConfig.setitem w self key value).1 = Ok self1
    ∧ WritableConfig.contains_ w' self1 key' = true
    ∧ WritableConfig.get w' self1 key' default cast
      = cast_step cast (PStr (py_str value)).
Proof.
  destruct self as [[parser section source]]. simpl.
  intros [sectdict Hsect] Hnamed Hnotdefault Hv Hcase.
  by apply (keys_ignore_case_at parser section source sectdict).
Qed.

Lemma writable_keys_ignore_case_witness :
  let self :=
    WritableConfig.mk
      (WritableRepositoryIni.mk
         (configparser.mkParser ∅ {["default" := ∅]}) "default" ["app.ini"]) in
  let w := initial_world ∅ ∅ in
  ∃ self1,
    (@WritableConfig.setitem plain_ini.format w self "Debug" (PBool true)).1
    = Ok self1
    ∧ WritableConfig.contains_ w self1 "DEBUG" = true
    ∧ WritableConfig.get w self1 "DEBUG" None CastBool
      = cast_step CastBool (PStr "True").
Proof.
  apply (@writable_keys_ignore_case plain_ini.format (initial_world ∅ ∅)
    (initial_world ∅ ∅)
    (WritableConfig.mk
      (WritableRepositoryIni.mk
         (configparser.mkParser ∅ {["default" := ∅]}) "default" ["app.ini"]))
    "Debug" "DEBUG" (PBool true) None CastBool).
  - exists ∅. reflexivity.
  - discriminate.
  - discriminate.
  - reflexivity.
  - reflexivity.
Defined.

(** X10. Setting a key (to a value free of percent signs) or deleting a
    key leaves the membership of every key with a different lower-case
    form as it was. *)
Theorem writable_other_keys `{IniFormat} (w w' : World)
    (self : WritableConfig.t) (key key' : string) (value : pyval) :
  let repository := WritableConfig.repository self in
  let section := WritableRepositoryIni.SECTION repository in
  is_Some (configparser._sections (WritableRepositoryIni.parser repository)
             !! section) →
  section ≠ "" →
  section ≠ "DEFAULT" →
  Str.lower key' ≠ Str.lower key →
  (Str.contains_char "%" (py_str value) = false →
   ∃ self1,
     (WritableConfig.setitem w self key value).1 = Ok self1
     ∧ WritableConfig.contains_ w' self1 key'
       = WritableConfig.contains_ w' self key')
  ∧ ∃ self2,
      (WritableConfig.delitem w self key).1 = Ok self2
      ∧ WritableConfig.contains_ w' self2 key'
        = WritableConfig.contains_ w' self key'.
Proof.
  destruct self as [[parser section source]]. simpl.
  intros [sectdict Hsect] Hnamed Hnotdefault Hne.
  by apply (other_keys_at parser section source sectdict).
Qed.

Lemma writable_other_keys_witness :
  let self :=
    WritableConfig.mk
      (WritableRepositoryIni.mk
         (configparser.mkParser ∅ {["default" := {["port" := "80"]}]})
         "default" ["app.ini"]) in
  let w := initial_world ∅ ∅ in
  ∃ self2,
    (@WritableConfig.delitem plain_ini.format w self "host").1 = Ok self2
    ∧ WritableConfig.contains_ w self2 "PORT"
      = WritableConfig.contains_ w self "PORT".
Proof.
  refine (proj2 (@writable_other_keys plain_ini.format (initial_world ∅ ∅)
    (initial_world ∅ ∅)
    (WritableConfig.mk
      (WritableRepositoryIni.mk
         (configparser.mkParser ∅ {["default" := {["port" := "80"]}]})
         "default" ["app.ini"]))
    "host" "PORT" PNone _ _ _ _)).
  - eexists. reflexivity.
  - discriminate.
  - discriminate.
  - discriminate.
Defined.

(** X11. Deleting a key that the section does not hold raises nothing and
    returns the configuration unchanged. *)
Theorem writable_delete_absent `{IniFormat} (w : World)
    (self : WritableConfig.t) (key : string) (sectdict : gmap string string) :
  let repository := WritableConfig.repository self in
  let section := WritableRepositoryIni.SECTION repository in
  configparser._sections (WritableRepositoryIni.parser repository) !! section
  = Some sectdict →
  section ≠ "" →
  section ≠ "DEFAULT" →
  sectdict !! Str.lower key = None →
  (WritableConfig.delitem w self key).1 = Ok self.
Proof.
  destruct self as [[parser section source]]. simpl.
  intros Hsect Hnamed Hnotdefault Habsent.
  by apply (delete_absent_at parser section source sectdict).
Qed.

Lemma writable_delete_absent_witness :
  let self :=
    WritableConfig.mk
      (WritableRepositoryIni.mk
         (configparser.mkParser ∅ {["default" := {["port" := "80"]}]})
         "default" ["app.ini"]) in
  (@WritableConfig.delitem plain_ini.format (initial_world ∅ ∅) self "host").1
  = Ok self.
Proof.
  refine (@writable_delete_absent plain_ini.format (initial_world ∅ ∅)
    (WritableConfig.mk
      (WritableRepositoryIni.mk
         (configparser.mkParser ∅ {["default" := {["port" := "80"]}]})
         "default" ["app.ini"]))
    "host" {["port" := "80"]} eq_refl _ _ eq_refl); discriminate.
Defined.

(** ** WritableConfig: the file behind the configuration *)


(** X13. After the section has been deleted through the configuration
    ([del config.section] or [del config.SECTION]), no key is a member:
    every [get] without a default raises [UndefinedValueError], and every
    assignment and every deletion of a key raises, so the configuration
    stays empty until a new repository is built. *)
Theorem writable_delete_section `{IniFormat} (w : World)
    (self : WritableConfig.t) (item : string) :
  let section :=
    WritableRepositoryIni.SECTION (WritableConfig.repository self) in
  item ∈ ["section"; "SECTION"] →
  section ≠ "" →
  section ≠ "DEFAULT" →
  let self' := (WritableConfig.delattr w self item).1 in
  (∀ (w' : World) (key : string) (cast : cast_arg),
     WritableConfig.contains_ w' self' key = false
     ∧ WritableConfig.get w' self' key None cast
       = Raise (UndefinedValueError (Config.not_found_message key)))
  ∧ (∀ (w' : World) (key : string) (value : pyval),
       (WritableConfig.setitem w' self' key value).1
       = Raise (NoSectionError section)
       ∨ (WritableConfig.setitem w' self' key value).1 = Raise ValueError)
  ∧ (∀ (w' : World) (key : string),
       (WritableConfig.delitem w' self' key).1
       = Raise (NoSectionError section)).
Proof.
  destruct self as [[parser section source]]. cbn [WritableConfig.repository
    WritableRepositoryIni.SECTION].
  intros Hitem Hnamed Hnotdefault.
  unfold WritableConfig.delattr.
  rewrite bool_decide_eq_true_2 by done.
  unfold WritableRepositoryIni.delattr.
  rewrite bool_decide_eq_true_2 by done.
  cbn [fst WritableConfig.repository WritableRepositoryIni.parser
       WritableRepositoryIni.SECTION WritableRepositoryIni.source].
  set (parser' := configparser.remove_section parser section).
  assert (Hgone : configparser._sections parser' !! section = None)
    by apply lookup_delete_eq.
  assert (Hnd : bool_decide (section = "" ∨ section = configparser.default_section)
                = false).
  { apply bool_decide_eq_false. by intros [?|?]. }
  assert (Hcontains : ∀ w' key,
            WritableConfig.contains_ w'
              (WritableConfig.mk
                 (WritableRepositoryIni.mk parser' section source)) key
            = false).
  { intros w' key. unfold WritableConfig.contains_, contains,
      WritableRepositoryIni.contains, configparser.has_option.
    cbn [WritableConfig.repository WritableRepositoryIni.parser
         WritableRepositoryIni.SECTION].
    by rewrite Hnd, Hgone. }
  split; [|split].
  - intros w' key cast. split; [apply Hcontains|].
    unfold WritableConfig.get.
    fold (WritableConfig.contains_ w'
            (WritableConfig.mk
               (WritableRepositoryIni.mk parser' section source)) key).
    by rewrite Hcontains.
  - intros w' key value.
    unfold WritableConfig.setitem, WritableRepositoryIni.setitem,
      configparser.set.
    cbn [WritableConfig.repository WritableRepositoryIni.parser
         WritableRepositoryIni.SECTION].
    destruct (if bool_decide (py_str value = "") then Ok (py_str value)
              else configparser.before_set (py_str value)) as [v|e] eqn:E.
    + left. cbn [bind]. by rewrite Hnd, Hgone.
    + right. cbn [bind]. destruct (bool_decide (py_str value = "")); [done|].
      unfold configparser.before_set in E.
      destruct (existsb _ _); by inversion E.
  - intros w' key.
    unfold WritableConfig.delitem, WritableRepositoryIni.delitem,
      configparser.remove_option.
    cbn [WritableConfig.repository WritableRepositoryIni.parser
         WritableRepositoryIni.SECTION].
    by rewrite Hnd, Hgone.
Qed.

Lemma writable_delete_section_witness :
  let self :=
    WritableConfig.mk
      (WritableRepositoryIni.mk
         (configparser.mkParser ∅ {["default" := {["port" := "80"]}]})
         "default" ["app.ini"]) in
  let w := initial_world ∅ ∅ in
  let self' := (@WritableConfig.delattr plain_ini.format w self "section").1 in
  WritableConfig.get w self' "port" None CastUndefined
  = Raise (UndefinedValueError (Config.not_found_message "port")).
Proof.
  refine (proj2 (proj1 (@writable_delete_section plain_ini.format
    (initial_world ∅ ∅)
    (WritableConfig.mk
      (WritableRepositoryIni.mk
         (configparser.mkParser ∅ {["default" := {["port" := "80"]}]})
         "default" ["app.ini"]))
    "section" _ _ _) (initial_world ∅ ∅) "port" CastUndefined)).
  - apply list_elem_of_here.
  - discriminate.
  - discriminate.
Defined.

(** ** WritableRepositoryIni: the constructor *)



(** X15. A configuration built by the constructor with [create_section]
    left on, for a named section other than [DEFAULT], accepts
    assignments at once: for every key and every value free of percent
    signs the assignment succeeds and [get] returns the value's string
    form. *)
Theorem constructed_config_round_trip `{IniFormat} (w w1 : World)
    (source : path) (section : option pyval) (self : WritableConfig.t)
    (key : string) (value : pyval) :
  WritableConfig.init w source section (Some true) = (Ok self, w1) →
  py_str (default (PStr "default") section) ≠ "" →
  py_str (default (PStr "default") section) ≠ "DEFAULT" →
  Str.contains_char "%" (py_str value) = false →
  ∃ self1,
    (WritableConfig.setitem w1 self key value).1 = Ok self1
    ∧ ∀ w', WritableConfig.get w' self1 key None CastUndefined
            = Ok (PStr (py_str value)).
Proof.
  unfold WritableConfig.init.
  destruct (WritableRepositoryIni.init w source section (Some true))
    as [[r|e] w2] eqn:Hinit; [|done].
  intros [= <- <-] Hnamed Hnotdefault Hv.
  destruct (init_section_exists _ _ _ _ _ Hinit) as [HS Hex].
  destruct r as [parser sec src]. cbn in HS, Hex. rewrite <- HS in *.
  destruct Hex as [sectdict Hsect].
  destruct (keys_ignore_case_at parser sec src sectdict Hsect Hnamed
              Hnotdefault w2 w2 key key value None CastUndefined Hv eq_refl)
    as (self1 & Hset & _ & _).
  exists self1. split; [done|]. intros w'.
  destruct (keys_ignore_case_at parser sec src sectdict Hsect Hnamed
              Hnotdefault w2 w' key key value None CastUndefined Hv eq_refl)
    as (self1' & Hset' & _ & Hget).
  rewrite Hset in Hset'. by injection Hset' as <-.
Qed.

Lemma constructed_config_round_trip_witness :
  ∃ self1,
    (@WritableConfig.setitem plain_ini.format
       (@WritableConfig.init plain_ini.format (initial_world ∅ ∅)
          ["app.ini"] None (Some true)).2
       (WritableConfig.mk
          (WritableRepositoryIni.mk
             (configparser.mkParser ∅ {["default" := ∅]}) "default"
             ["app.ini"]))
       "port" (PInt 80)).1 = Ok self1
    ∧ ∀ w', WritableConfig.get w' self1 "port" None CastUndefined
            = Ok (PStr "80").
Proof.
  refine (@constructed_config_round_trip plain_ini.format (initial_world ∅ ∅)
    _ ["app.ini"] None _ "port" (PInt 80) _ _ _ eq_refl).
  - reflexivity.
  - discriminate.
  - discriminate.
Defined.

(** X16. Built with [create_section=False] on a file that lacks the
    section, the repository is returned without touching the file, and it
    cannot be written: no key is a member, and every assignment of a value
    free of percent signs raises [NoSectionError]. *)
Theorem writable_without_section `{IniFormat} (w : World) (source : path)
    (section : string) (file_ : list string)
    (parser : configparser.ConfigParser) :
  files w !! source = Some file_ →
  read_file file_ = Ok parser →
  configparser._sections parser !! section = None →
  section ≠ "" →
  section ≠ "DEFAULT" →
  let self := WritableRepositoryIni.mk parser section source in
  WritableRepositoryIni.init w source (Some (PStr section)) (Some false)
  = (Ok self, w)
  ∧ (∀ key, WritableRepositoryIni.contains self key = false)
  ∧ ∀ (w' : World) (key : string) (value : pyval),
      Str.contains_char "%" (py_str value) = false →
      WritableRepositoryIni.setitem w' self key value
      = (Raise (NoSectionError section), w').
Proof.
  intros Hfile Hread Hmissing Hnamed Hnotdefault self.
  assert (Hnd : bool_decide (section = "" ∨ section = configparser.default_section)
                = false).
  { apply bool_decide_eq_false. by intros [?|?]. }
  split; [|split].
  - unfold WritableRepositoryIni.init, os_path.exists_, os_path.isfile.
    rewrite Hfile. rewrite bool_decide_eq_true_2 by eauto.
    unfold RepositoryIni.init. rewrite Hfile, Hread. reflexivity.
  - intros key. unfold WritableRepositoryIni.contains, configparser.has_option.
    cbn. by rewrite Hnd, Hmissing.
  - intros w' key value Hv.
    unfold WritableRepositoryIni.setitem, configparser.set. cbn.
    assert ((if bool_decide (py_str value = "") then Ok (py_str value)
             else configparser.before_set (py_str value))
            = Ok (py_str value)) as ->.
    { destruct (bool_decide (py_str value = ""));
        [done|by apply before_set_plain]. }
    cbn. by rewrite Hnd, Hmissing.
Qed.

Lemma writable_without_section_witness :
  let nl := plain_ini.newline in
  let w := initial_world ∅
             {[ ["app.ini"] := ["[settings]" +:+ nl; "debug = on" +:+ nl] ]} in
  let self :=
    WritableRepositoryIni.mk
      (configparser.mkParser ∅ {[ "settings" := {[ "debug" := "on" ]} ]})
      "local" ["app.ini"] in
  @WritableRepositoryIni.init plain_ini.format w ["app.ini"]
    (Some (PStr "local")) (Some false) = (Ok self, w)
  ∧ @WritableRepositoryIni.setitem plain_ini.format w self "port" (PInt 80)
    = (Raise (NoSectionError "local"), w).
Proof.
  pose proof (@writable_without_section plain_ini.format
    (initial_world ∅
       {[ ["app.ini"] := ["[settings]" +:+ plain_ini.newline;
                          "debug = on" +:+ plain_ini.newline] ]})
    ["app.ini"] "local"
    ["[settings]" +:+ plain_ini.newline; "debug = on" +:+ plain_ini.newline]
    (configparser.mkParser ∅ {[ "settings" := {[ "debug" := "on" ]} ]})
    eq_refl eq_refl eq_refl) as H.
  destruct H as (H1 & _ & H3); [discriminate|discriminate|].
  split; [exact H1|]. apply H3. reflexivity.
Defined.

(** X17. The section name [DEFAULT] cannot be used for a writable
    repository unless [create_section] is switched off: the parser never
    lists [DEFAULT] among its sections, so the constructor tries to add it
    and [ValueError] is raised, with the file left as it was. *)
Theorem writable_default_section_rejected `{IniFormat} (w : World)
    (source : path) (file_ : list string)
    (parser : configparser.ConfigParser) (create_section : option bool) :
  files w !! source = Some file_ →
  read_file file_ = Ok parser →
  configparser._sections parser !! "DEFAULT" = None →
  create_section ≠ Some false →
  WritableRepositoryIni.init w source (Some (PStr "DEFAULT")) create_section
  = (Raise ValueError, w).
Proof.
  intros Hfile Hread Hmissing Hcreate.
  unfold WritableRepositoryIni.init, os_path.exists_, os_path.isfile.
  rewrite Hfile. rewrite bool_decide_eq_true_2 by eauto.
  unfold RepositoryIni.init. rewrite Hfile, Hread. cbn.
  assert (default true create_section = true) as ->.
  { by destruct create_section as [[]|]. }
  rewrite bool_decide_eq_true_2; [done|].
  unfold configparser.sections. by apply not_elem_of_dom.
Qed.

Lemma writable_default_section_rejected_witness :
  let nl := plain_ini.newline in
  let w := initial_world ∅
             {[ ["app.ini"] := ["[DEFAULT]" +:+ nl; "mode = prod" +:+ nl] ]} in
  @WritableRepositoryIni.init plain_ini.format w ["app.ini"]
    (Some (PStr "DEFAULT")) None
  = (Raise ValueError, w).
Proof.
  refine (@writable_default_section_rejected plain_ini.format
    (initial_world ∅
       {[ ["app.ini"] := ["[DEFAULT]" +:+ plain_ini.newline;
                          "mode = prod" +:+ plain_ini.newline] ]})
    ["app.ini"]
    ["[DEFAULT]" +:+ plain_ini.newline; "mode = prod" +:+ plain_ini.newline]
    (configparser.mkParser {[ "mode" := "prod" ]} ∅) None
    eq_refl eq_refl eq_refl _).
  discriminate.
Defined.

(** ** AutoConfig: loading once, and what is loaded *)

(** X18. The search runs at most once for an [AutoConfig]: a call on an
    instance that holds a configuration uses it without looking at the
    files, and the instance returned by any call that loaded one keeps
    using it in every later call, whatever the files have become; a load
    that raises stores nothing, so the next call searches again. *)
Theorem autoconfig_loads_once `{IniFormat} (w : World) (self : AutoConfig.t)
    (caller : path) (option : string) (default : Datatypes.option pyval)
    (cast : cast_arg) :
  let out := AutoConfig.call w self caller option default cast in
  (∀ config, AutoConfig.config self = Some config →
     out = (Config.call w config option default cast, self))
  ∧ (∀ config, AutoConfig.config out.2 = Some config →
       ∀ (w' : World) (caller' : path) (option' : string)
         (default' : Datatypes.option pyval) (cast' : cast_arg),
         AutoConfig.call w' out.2 caller' option' default' cast'
         = (Config.call w' config option' default' cast', out.2))
  ∧ (∀ e, AutoConfig.config self = None →
       AutoConfig._load w self
         (from_option id caller (AutoConfig.search_path self)) = Raise e →
       out = (Raise e, self)).
Proof.
  intros out. unfold out, AutoConfig.call. split; [|split].
  - by intros config ->.
  - destruct (AutoConfig.config self) as [c|] eqn:Hc.
    + cbn [snd]. intros config Hconfig w' caller' option' default' cast'.
      by rewrite Hconfig.
    + destruct (AutoConfig._load w self _) as [c|e].
      * cbn [snd AutoConfig.config]. intros config [= <-]. done.
      * cbn [snd]. intros config Hconfig. congruence.
  - intros e -> ->. done.
Qed.

Lemma autoconfig_loads_once_witness :
  let F := plain_ini.format in
  let nl := plain_ini.newline in
  let w := initial_world ∅ {[ [".env"; "srv"] := ["DEBUG=on" +:+ nl] ]} in
  let out := @AutoConfig.call F w (AutoConfig.init (Some ["srv"])) []
               "DEBUG" None CastUndefined in
  @AutoConfig.call F (initial_world ∅ ∅) out.2 [] "DEBUG" None CastUndefined
  = (Ok (PStr "on"), out.2).
Proof.
  exact (proj1 (proj2 (@autoconfig_loads_once plain_ini.format
    (initial_world ∅
       {[ [".env"; "srv"] := ["DEBUG=on" +:+ plain_ini.newline] ]})
    (AutoConfig.init (Some ["srv"])) [] "DEBUG" None CastUndefined))
    _ eq_refl (initial_world ∅ ∅) [] "DEBUG" None CastUndefined).
Defined.







(** ** CustomConfig *)



(** ** Csv: splitting at the delimiter *)

Section csv_split.
Import shlex.
Variables (pb : list (list ascii)) (ws : string).








End csv_split.

Section csv_items.
Context {A B : Type} (self : Csv.t A B).
Variable d : ascii.
Hypothesis Hd : Str.mem d (Csv.delimiter self) = true.






End csv_items.



Section csv_edges.
Import shlex.
Variables (pb : list (list ascii)) (ws : string).


Lemma loop_skip_delimiters (l : list ascii) :
  forallb (λ c, Str.mem c ws) l = true →
  ∀ (fuel : nat) (esc : ascii),
    read_token_loop (length l + S fuel)
      (mk l (Some " "%char) [] pb ws true) false esc
    = Ok (mk [] None [] pb ws true, false).
Proof.
  induction l as [|c l IH]; intros Hl fuel esc.
  - reflexivity.
  - cbn [forallb] in Hl. apply andb_prop in Hl as [Hc Hl].
    change (length (c :: l) + S fuel) with (S (length l + S fuel)).
    lexer_step. eval_closed. rewrite Hc. cbn. by apply IH.
Qed.

End csv_edges.



(** X24. A value made of delimiter characters only, the empty value
    included, has no items: [post_process] receives the empty list.  No
    empty item is ever produced for text between two delimiters. *)
Theorem csv_delimiters_only {A B : Type} (self : Csv.t A B) (value : string) :
  forallb (λ c, Str.mem c (Csv.delimiter self)) (Str.chars value) = true →
  Csv.call self value = Csv.post_process self [].
Proof.
  intros Hall. unfold Csv.call, shlex.init.
  cbn [shlex.instream shlex.state shlex.token shlex.pushback].
  cbn [Csv.items]. unfold shlex.get_token. cbn [shlex.pushback].
  unfold shlex.read_token. cbn [shlex.instream].
  replace (S (length (Str.chars value)))
    with (length (Str.chars value) + 1) by lia.
  by rewrite loop_skip_delimiters.
Qed.

Lemma csv_delimiters_only_witness :
  Csv.call Csv.default ",,," = Ok [].
Proof. exact (csv_delimiters_only Csv.default ",,," eq_refl). Defined.

(** ** Choices *)

(** X25. [Choices] returns nothing but valid values: when a call returns,
    the result is the cast of the argument and it equals (in the sense of
    [==]) an element of the flat list or the value of one of the
    (value, label) pairs; the labels play no part. *)
Theorem choices_returns_valid_value (flat : option (list pyval))
    (cast : option (pyval → result pyval))
    (choices : option (list (pyval * pyval))) (value v : pyval) :
  Choices.call (Choices.init flat cast choices) value = Ok v →
  default text_type cast value = Ok v
  ∧ ∃ x, py_eq v x = true
      ∧ (x ∈ default [] flat ∨ ∃ label, (x, label) ∈ default [] choices).
Proof.
  unfold Choices.call, Choices.init.
  cbn [Choices.cast Choices._valid_values].
  destruct (default text_type cast value) as [t|e]; [|done]. cbn [bind].
  destruct (py_in t _) eqn:Hin; [|done]. cbn [negb].
  intros [= <-]. split; [done|].
  unfold py_in in Hin. apply existsb_exists in Hin as (x & Hx & Heq).
  exists x. split; [done|].
  apply in_app_or in Hx as [Hx|Hx].
  - left. by apply list_elem_of_In.
  - right. apply list_elem_of_In, list_elem_of_fmap in Hx as ([x' label] & -> & Hx).
    by exists label.
Qed.

Lemma choices_returns_valid_value_witness :
  default text_type None (PInt 2) = Ok (PStr "2")
  ∧ ∃ x, py_eq (PStr "2") x = true
      ∧ (x ∈ default [] (Some [PStr "1"])
         ∨ ∃ label, (x, label)
                    ∈ default [] (Some [(PStr "2", PStr "two")])).
Proof.
  exact (choices_returns_valid_value (Some [PStr "1"]) None
           (Some [(PStr "2", PStr "two")]) (PInt 2) (PStr "2") eq_refl).
Defined.

(** X26. With the default cast the argument is compared as text: an
    accepted value is the argument's string form and is accepted again
    when passed back, and a [Choices] whose valid values are all
    non-strings (numbers, booleans, [None]) rejects every argument with
    [ValueError]. *)
Theorem choices_default_cast (flat : option (list pyval))
    (choices : option (list (pyval * pyval))) (value : pyval) :
  let self := Choices.init flat None choices in
  (∀ v, Choices.call self value = Ok v →
     v = PStr (py_str value) ∧ Choices.call self v = Ok v)
  ∧ ((∀ x s, x ∈ Choices._valid_values self → x ≠ PStr s) →
     Choices.call self value = Raise ValueError).
Proof.
  intros self. unfold self, Choices.call, Choices.init.
  cbn [Choices.cast Choices._valid_values default text_type bind].
  split.
  - intros v. destruct (py_in (PStr (py_str value)) _) eqn:Hin; [|done].
    cbn [negb]. intros [= <-]. split; [done|].
    cbn [py_str]. by rewrite Hin.
  - intros Hnostr.
    destruct (py_in (PStr (py_str value)) _) eqn:Hin; [|done]. exfalso.
    unfold py_in in Hin. apply existsb_exists in Hin as (x & Hx & Heq).
    apply list_elem_of_In in Hx.
    destruct x as [| | |s]; try done. by apply (Hnostr _ s Hx).
Qed.

Lemma choices_default_cast_witness :
  Choices.call (Choices.init (Some [PInt 1; PInt 2; PInt 3]) None None)
    (PInt 1)
  = Raise ValueError.
Proof.
  refine (proj2 (choices_default_cast (Some [PInt 1; PInt 2; PInt 3]) None
                   (PInt 1)) _).
  intros x s Hx ->. cbn in Hx.
  repeat (apply elem_of_cons in Hx as [Hx|Hx]; [discriminate|]).
  by apply elem_of_nil in Hx.
Defined.

(** ** The boolean cast on integers *)

Section cast_integer.

Lemma pretty_N_char_numeral (n : N) : numeral_start (pretty_N_char n) = true.
Proof. unfold pretty_N_char. by repeat case_match. Qed.

Lemma pretty_N_go_numeral (x : N) :
  ∀ s, (0 < x)%N →
    ∃ c rest, pretty_N_go x s = String c rest ∧ numeral_start c = true.
Proof.
  induction (N.lt_wf_0 x) as [x _ IH]. intros s Hx.
  rewrite pretty_N_go_step by done.
  destruct (decide (x `div` 10 = 0)%N) as [E|E].
  - rewrite E, pretty_N_go_0. eexists _, _. split; [done|].
    apply pretty_N_char_numeral.
  - apply IH; [|by apply N.neq_0_lt_0]. by apply N.div_lt.
Qed.

Lemma pretty_Z_numeral (z : Z) :
  ∃ c rest, pretty z = String c rest ∧ numeral_start c = true.
Proof.
  destruct z as [|p|p].
  - by exists "0"%char, "".
  - unfold pretty, pretty_Z, pretty, pretty_positive, pretty, pretty_N.
    rewrite decide_False by done. by apply pretty_N_go_numeral.
  - by exists "-"%char, (pretty p).
Qed.

(** A numeral matches no token but the one it is spelled like. *)
Lemma numeral_tokens (c : ascii) (rest : string) :
  numeral_start c = true →
  existsb (eq_ignore_case (String c rest)) true_tokens
  = bool_decide (String c rest = "1")
  ∧ existsb (eq_ignore_case (String c rest)) false_tokens
    = bool_decide (String c rest = "0").
Proof.
  intros Hc.
  assert (H : forallb (λ c, implb (numeral_start c)
                (negb (same_letter c "y") && negb (same_letter c "t")
                 && negb (same_letter c "o") && negb (same_letter c "n")
                 && negb (same_letter c "f")
                 && Bool.eqb (same_letter c "1") (Ascii.eqb c "1")
                 && Bool.eqb (same_letter c "0") (Ascii.eqb c "0")))
              all_ascii = true) by (vm_compute; reflexivity).
  rewrite forallb_forall in H. specialize (H c (in_all_ascii c)).
  rewrite Hc in H. cbn [implb] in H.
  repeat (apply andb_prop in H as [H ?]).
  repeat match goal with
         | H : negb _ = true |- _ => apply negb_true_iff in H
         | H : Bool.eqb _ _ = true |- _ => apply Bool.eqb_prop in H
         end.
  unfold true_tokens, false_tokens. cbn [existsb eq_ignore_case].
  repeat match goal with H : same_letter c _ = _ |- _ => rewrite H; clear H end.
  cbn [andb orb]. rewrite !orb_false_r. split.
  - destruct (Ascii.eqb_spec c "1") as [->|Hne].
    + destruct rest; cbn [andb eq_ignore_case]; [done|].
      by rewrite bool_decide_eq_false_2.
    + cbn [andb]. rewrite bool_decide_eq_false_2; [done|]. by intros [= ? ?].
  - destruct (Ascii.eqb_spec c "0") as [->|Hne].
    + destruct rest; cbn [andb eq_ignore_case]; [done|].
      by rewrite bool_decide_eq_false_2.
    + cbn [andb]. rewrite bool_decide_eq_false_2; [done|]. by intros [= ? ?].
Qed.

End cast_integer.

(** X27. The boolean cast of an integer accepts 1 and 0 only: 1 gives
    true, 0 gives false, and every other integer raises [ValueError],
    because its decimal text is not a truth token. *)
Theorem boolean_cast_of_integer (z : Z) :
  Config._cast_boolean (PInt z)
  = if (z =? 1)%Z then Ok (PBool true)
    else if (z =? 0)%Z then Ok (PBool false)
    else Raise ValueError.
Proof.
  rewrite _cast_boolean_spec. cbn [py_str]. unfold spec_cast_boolean.
  destruct (pretty_Z_numeral z) as (c & rest & Hz & Hc). rewrite Hz.
  rewrite bool_decide_eq_false_2 by done.
  destruct (numeral_tokens c rest Hc) as [-> ->]. rewrite <- Hz.
  destruct (Z.eqb_spec z 1) as [->|H1]; [done|].
  rewrite (bool_decide_eq_false_2 (pretty z = "1")).
  2:{ intros E. apply H1. by apply (inj pretty). }
  destruct (Z.eqb_spec z 0) as [->|H0]; [done|].
  rewrite (bool_decide_eq_false_2 (pretty z = "0")); [done|].
  intros E. apply H0. by apply (inj pretty).
Qed.
